(** * Answers with inline citations over local PDF files

    A shallow embedding of [run_pdf_citations.py]: the citation chunker
    [_split_and_number], the two prompt templates, the driver
    [answer_with_citations] with its source map printer, and [main]; and of
    the source map printer of [citation_query_engine.py].  The properties of
    the specification that concern them follow.

    Conventions.
    - A Python [str] is a sequence of Unicode code points: [list N].
      [py "..."] injects an ASCII literal; the newline is code point 10.
    - A Python [int] is unbounded: [Z].
    - A relevance score is a Python [float]: a primitive binary64 value; an
      absent score ([None]) is [None : option float].
    - Node metadata is a [dict] from identifiers to Python values:
      [gmap string PyVal].
    - LlamaIndex and the OpenAI services are external collaborators.  They are
      parameters of the model; each call may raise.  Building the client
      objects (the embedding model, the chat model, the synthesizer) is
      taken not to raise, and [split_text] is taken to return. *)

From Stdlib Require Import ZArith NArith String Ascii Decimal PrimFloat.
From stdpp Require Import gmap strings list fin_maps.

Local Open Scope Z_scope.

(** ** Python values *)

Abbreviation pystr := (list N).

Definition py (s : string) : pystr :=
  (fun a => N_of_ascii a) <$> list_ascii_of_string s.

Definition NL : N := 10%N.
Definition SPACE : N := 32%N.

Fixpoint digits (d : Decimal.uint) : pystr :=
  match d with
  | Decimal.Nil => []
  | Decimal.D0 d => 48%N :: digits d
  | Decimal.D1 d => 49%N :: digits d
  | Decimal.D2 d => 50%N :: digits d
  | Decimal.D3 d => 51%N :: digits d
  | Decimal.D4 d => 52%N :: digits d
  | Decimal.D5 d => 53%N :: digits d
  | Decimal.D6 d => 54%N :: digits d
  | Decimal.D7 d => 55%N :: digits d
  | Decimal.D8 d => 56%N :: digits d
  | Decimal.D9 d => 57%N :: digits d
  end.

(** [str(n)] for an [int]: decimal digits, with a leading minus sign. *)
Definition str_int (z : Z) : pystr :=
  match Z.to_int z with
  | Decimal.Pos d => digits d
  | Decimal.Neg d => 45%N :: digits d
  end.

(** The values a metadata dictionary holds here: [None], a [str] or an
    [int]. *)
Inductive PyVal : Type :=
  | VNone
  | VStr (s : pystr)
  | VInt (z : Z).

(** Python truthiness, as used by [or]. *)
Definition truthy (v : PyVal) : bool :=
  match v with
  | VNone => false
  | VStr [] => false
  | VStr (_ :: _) => true
  | VInt z => negb (z =? 0)
  end.

(** [a or b]: the first operand when it is truthy, else the second. *)
Definition py_or (a b : PyVal) : PyVal := if truthy a then a else b.

Infix "|or|" := py_or (at level 50, left associativity).

(** [meta.get(key)]: [None] for a missing key. *)
Definition dict_get (meta : gmap string PyVal) (key : string) : PyVal :=
  default VNone (meta !! key).

(** [str(v)], which is what an f-string field renders. *)
Definition py_str (v : PyVal) : pystr :=
  match v with
  | VNone => py "None"
  | VStr s => s
  | VInt z => str_int z
  end.

(** [s.replace("\n", " ")]: the pattern is one code point, so the
    replacement is a map over the code points. *)
Definition replace_nl (s : pystr) : pystr :=
  (fun c => if (c =? NL)%N then SPACE else c) <$> s.

(** A raised exception: an [Exception], identified by its [repr], or the
    [KeyboardInterrupt] with which an interrupted call ends. *)
Inductive PyExc : Type :=
  | Raised (repr : pystr)
  | KeyboardInterrupt.

(** ** Nodes *)

Record TextNode : Type := mkTextNode {
  text : pystr;
  metadata : gmap string PyVal
}.

Record NodeWithScore : Type := mkNodeWithScore {
  node : TextNode;
  score : option float
}.

(** [base_node.get_content()] with the default metadata mode. *)
Definition get_content (n : TextNode) : pystr := text n.

(** One dictionary of [source_map]; its keys are fixed, so a record. *)
Record SourceMapEntry : Type := mkSourceMapEntry {
  src_N : Z;
  src_file_path : PyVal;
  src_page : PyVal;
  src_score : option float;
  src_snippet : pystr
}.

(** ** The citation chunker *)

(** Lines 100 and 101: provenance read from the metadata of a passage. *)
Definition file_path_of (meta : gmap string PyVal) : PyVal :=
  dict_get meta "file_path" |or| dict_get meta "filename"
    |or| dict_get meta "source" |or| VStr (py "unknown").

Definition page_of (meta : gmap string PyVal) : PyVal :=
  dict_get meta "page_label" |or| dict_get meta "page_number"
    |or| dict_get meta "page" |or| VStr (py "?").

(** The f-string ["Source {counter}:\n{chunk}"] of line 104. *)
Definition labeled_text (counter : Z) (chunk : pystr) : pystr :=
  py "Source " ++ str_int counter ++ py ":" ++ [NL] ++ chunk.

(** The three variables the loops of [_split_and_number] update. *)
Record ChunkerState : Type := mkChunkerState {
  numbered_nodes : list NodeWithScore;
  source_map : list SourceMapEntry;
  counter : Z
}.

Definition chunker_init : ChunkerState :=
  {| numbered_nodes := []; source_map := []; counter := 1 |}.

(** Body of the inner loop, lines 104 to 115. *)
Definition number_chunk (nws : NodeWithScore) (file_path page : PyVal)
    (st : ChunkerState) (chunk : pystr) : ChunkerState :=
  let new_node :=
    {| text := labeled_text (counter st) chunk;
       metadata := <["source_index" := VInt (counter st)]>
                     (<["file_path" := file_path]>
                        (<["page" := page]> ∅)) |} in
  let score := score nws in
  {| numbered_nodes :=
       numbered_nodes st ++ [{| node := new_node; score := score |}];
     source_map :=
       source_map st ++
         [{| src_N := counter st; src_file_path := file_path;
             src_page := page; src_score := score;
             src_snippet := replace_nl (take 240 chunk) |}];
     counter := counter st + 1 |}.

(** Body of the outer loop, lines 95 to 115. *)
Definition number_node (split_text : pystr -> list pystr)
    (st : ChunkerState) (nws : NodeWithScore) : ChunkerState :=
  let base_node := node nws in
  let text := get_content base_node in
  let meta := metadata base_node in
  let file_path := file_path_of meta in
  let page := page_of meta in
  foldl (number_chunk nws file_path page) st (split_text text).

Definition split_and_number_loop (split_text : pystr -> list pystr)
    (nodes : list NodeWithScore) : ChunkerState :=
  foldl (number_node split_text) chunker_init nodes.

Section Chunker.

(** [SentenceSplitter(chunk_size=..., chunk_overlap=...)]: the library
    constructor either raises or yields a splitter, of which the chunker
    uses [split_text] only. *)
Variable SentenceSplitter : Z -> Z -> PyExc + (pystr -> list pystr).

Definition _split_and_number (nodes : list NodeWithScore)
    (chunk_size chunk_overlap : Z)
    : PyExc + (list NodeWithScore * list SourceMapEntry) :=
  match SentenceSplitter chunk_size chunk_overlap with
  | inl e => inl e
  | inr split_text =>
      let st := split_and_number_loop split_text nodes in
      inr (numbered_nodes st, source_map st)
  end.

End Chunker.

(** ** Prompt templates *)

(** [sep.join(parts)]. *)
Fixpoint join (sep : pystr) (parts : list pystr) : pystr :=
  match parts with
  | [] => []
  | [p] => p
  | p :: rest => p ++ sep ++ join sep rest
  end.

(** A triple-quoted literal, given line by line. *)
Definition lines (ls : list string) : pystr := join [NL] (py <$> ls).

Definition CITATION_QA_TEMPLATE : pystr := lines [
  "You are a careful analyst. Use ONLY the numbered sources to answer.";
  "Each time you use information, cite it inline as [Source N]. If multiple sources support a claim, include multiple citations.";
  "";
  "Sources:";
  "{context_str}";
  "";
  "Question:";
  "{query_str}";
  "";
  "Rules:";
  "- Never invent citations or source numbers that do not exist above.";
  "- If the answer is not fully supported by the sources, say you don't know.";
  "- Keep the answer concise but complete.";
  "";
  "Answer with inline citations:" ]%string.

Definition CITATION_REFINE_TEMPLATE : pystr := lines [
  "We are refining an existing answer using NEW numbered sources.";
  "Use the new sources to improve or correct the answer. Preserve correct parts.";
  "";
  "Existing answer:";
  "{existing_answer}";
  "";
  "New sources:";
  "{context_msg}";
  "";
  "Rules:";
  "- Cite using [Source N] from the new sources when you add or modify content.";
  "- If the new sources are not helpful, return the original answer unchanged.";
  "";
  "Refined answer with inline citations:" ]%string.

(** [template.format] with keyword arguments, for templates whose only
    brace syntax is [{name}]: the text of every field is replaced by the
    value bound to its name, and the values are not scanned again. *)
Fixpoint kwarg (kwargs : list (pystr * pystr)) (name : pystr) : pystr :=
  match kwargs with
  | [] => []
  | (key, value) :: kwargs =>
      if bool_decide (key = name) then value else kwarg kwargs name
  end.

Fixpoint format_from (kwargs : list (pystr * pystr)) (field : option pystr)
    (template : pystr) : pystr :=
  match template with
  | [] => []
  | c :: rest =>
      match field with
      | None =>
          if (c =? 123)%N then format_from kwargs (Some []) rest
          else c :: format_from kwargs None rest
      | Some name =>
          if (c =? 125)%N then kwarg kwargs name ++ format_from kwargs None rest
          else format_from kwargs (Some (name ++ [c])) rest
      end
  end.

Definition format (template : pystr) (kwargs : list (pystr * pystr)) : pystr :=
  format_from kwargs None template.

(** The literal parts of the question-answering template around its two
    fields. *)
Definition QA_BEFORE_CONTEXT : pystr := lines [
  "You are a careful analyst. Use ONLY the numbered sources to answer.";
  "Each time you use information, cite it inline as [Source N]. If multiple sources support a claim, include multiple citations.";
  "";
  "Sources:";
  "" ]%string.

Definition QA_BEFORE_QUERY : pystr := lines [ ""; ""; "Question:"; "" ]%string.

Definition QA_AFTER_QUERY : pystr := lines [
  "";
  "";
  "Rules:";
  "- Never invent citations or source numbers that do not exist above.";
  "- If the answer is not fully supported by the sources, say you don't know.";
  "- Keep the answer concise but complete.";
  "";
  "Answer with inline citations:" ]%string.

(** Modelled from the spec: the first-pass render of the Prompt Builder.  The
    source only hands the two templates and the numbered nodes to the
    library synthesizer, whose code is not part of the repository; following
    section 4.2 of the specification, the render joins the texts of the
    units in order ([sep] is the library's separator) and fills the
    question-answering template with that context and the query. *)
Definition renderInitial (sep : pystr) (query : pystr)
    (units : list NodeWithScore) : pystr :=
  format CITATION_QA_TEMPLATE
    [(py "context_str", join sep ((fun u => get_content (node u)) <$> units));
     (py "query_str", query)].

(** ** The driver *)

(** What the synthesizer returns; line 165 reads two optional attributes
    and falls back on [str(resp)]. *)
Record Response : Type := mkResponse {
  response : PyVal;
  response_text : PyVal;
  response_str : pystr
}.

Record SynthConfig : Type := mkSynthConfig {
  llm : pystr;
  text_qa_template : pystr;
  refine_template : pystr;
  use_async : bool;
  response_mode : pystr
}.

(** Calls that leave the program, and lines written to standard output. *)
Inductive Event : Type :=
  | EvPrint (line : pystr)
  | EvLoad (pdf_paths : list pystr)
  | EvIndex (embed_model : pystr)
  | EvRetrieve (top_k : Z) (query : pystr)
  | EvSynthesize (cfg : SynthConfig) (query : pystr) (nodes : list NodeWithScore).

(** A computation: the events performed so far, and either the exception
    that ended it or its value. *)
Definition Run (A : Type) : Type := list Event * (PyExc + A).

Definition ret {A} (x : A) : Run A := ([], inr x).

(** Sequencing: an exception ends the computation; otherwise the events of
    the continuation follow. *)
Definition bind {A B} (f : A -> Run B) (m : Run A) : Run B :=
  match m with
  | (tr, inl e) => (tr, inl e)
  | (tr, inr x) => let '(tr', r) := f x in (tr ++ tr', r)
  end.

#[global] Instance Run_ret : MRet Run := @ret.
#[global] Instance Run_bind : MBind Run := @bind.

Definition print (line : pystr) : Run unit := ([EvPrint line], inr tt).

(** A call to a collaborator: the event is recorded, then the call returns
    or raises. *)
Definition call {A} (ev : Event) (r : PyExc + A) : Run A := ([ev], r).

(** A computation without events, such as a constructor. *)
Definition lift {A} (r : PyExc + A) : Run A := ([], r).

Fixpoint for_each {A} (l : list A) (body : A -> Run unit) : Run unit :=
  match l with
  | [] => ret tt
  | x :: l => body x ;; for_each l body
  end.

Definition NO_RESULTS_MESSAGE : pystr :=
  py "No results retrieved. Try increasing --top-k or check your PDFs.".

(** Line 126. *)
Definition loading_line (pdf_paths : list pystr) : pystr :=
  py "Loading " ++ str_int (Z.of_nat (length pdf_paths)) ++ py " PDF file(s)...".

Definition EMBED_MODEL : pystr := py "text-embedding-3-small".

(** Lines 145 to 155; the response mode is the compact one on both
    branches. *)
Definition synth_kwargs (model : pystr) : SynthConfig :=
  {| llm := model;
     text_qa_template := CITATION_QA_TEMPLATE;
     refine_template := CITATION_REFINE_TEMPLATE;
     use_async := true;
     response_mode := py "compact" |}.

(** Line 165, then [print], which writes [str] of its argument. *)
Definition final_text (resp : Response) : pystr :=
  py_str (response resp |or| response_text resp |or| VStr (response_str resp)).

(** ** The synthesizer, from the specification *)

Section Synthesizer.

(** The Completion Service of the specification, the separator the render
    puts between units, and the text of the fixed no-evidence answer. *)
Variable complete : pystr -> PyExc + pystr.
Variable sep : pystr.
Variable no_evidence_answer : pystr.

(** The response object that carries an answer text. *)
Definition answer_response (answer : pystr) : Response :=
  {| response := VStr answer; response_text := VNone; response_str := answer |}.

(** Modelled from the spec: the Incremental Synthesizer of section 4.3, which
    in the program is the object that the library builds in
    [get_response_synthesizer] and whose code is not part of the repository.
    The result is the list of the prompts sent to the Completion Service, in
    order, and the response or the failure.  In the compact mode that the
    source selects all units form one batch.  From START, no units lead to
    EMPTY: the fixed no-evidence answer, no completion call.  Units lead to
    INITIAL_SYNTHESIS: the first-pass prompt is rendered from the
    question-answering template of the settings, the Completion Service is
    called once, and its text is the answer (DONE); a failure of the
    Completion Service aborts the synthesis. *)
Definition synthesize (cfg : SynthConfig) (query : pystr)
    (units : list NodeWithScore) : list pystr * (PyExc + Response) :=
  match units with
  | [] => ([], inr (answer_response no_evidence_answer))
  | _ :: _ =>
      let prompt :=
        format (text_qa_template cfg)
          [(py "context_str", join sep ((fun u => get_content (node u)) <$> units));
           (py "query_str", query)] in
      ([prompt],
       match complete prompt with
       | inl e => inl e
       | inr answer => inr (answer_response answer)
       end)
  end.

(** The synthesizer as the driver calls it. *)
Definition asynthesize_spec (cfg : SynthConfig) (query : pystr)
    (units : list NodeWithScore) : PyExc + Response :=
  (synthesize cfg query units).2.

(** The calls to the Completion Service in a run: those made inside its
    calls to the synthesizer. *)
Definition completion_calls (tr : list Event) : list pystr :=
  ev ← tr;
  match ev with
  | EvSynthesize cfg query units => (synthesize cfg query units).1
  | _ => []
  end.

End Synthesizer.

Section Driver.

(** The collaborators: the PDF reader, the vector index with its
    embedding service, the retriever, the sentence splitter, the response
    synthesizer with its completion service, and [str] of a [float]. *)
Variables Documents Index : Type.
Variable load_data : list pystr -> PyExc + Documents.
Variable from_documents : Documents -> pystr -> PyExc + Index.
Variable retrieve : Index -> Z -> pystr -> PyExc + list NodeWithScore.
Variable SentenceSplitter : Z -> Z -> PyExc + (pystr -> list pystr).
Variable asynthesize :
  SynthConfig -> pystr -> list NodeWithScore -> PyExc + Response.
Variable float_str : float -> pystr.

(** [str(s['score'])]: the score is a [float] or [None]. *)
Definition score_str (score : option float) : pystr :=
  match score with
  | Some x => float_str x
  | None => py "None"
  end.

(** Line 173. *)
Definition source_line (s : SourceMapEntry) : pystr :=
  py "[Source " ++ str_int (src_N s) ++ py "] file=" ++ py_str (src_file_path s)
    ++ py " page=" ++ py_str (src_page s)
    ++ py " score=" ++ score_str (src_score s).

(** Line 174; the two box-drawing characters are U+2514 and U+2500. *)
Definition snippet_line (s : SourceMapEntry) : pystr :=
  py "  " ++ [9492%N; 9472%N] ++ py " " ++ src_snippet s ++ py "...".

(** Step 7, lines 169 to 176. *)
Definition show_source_map (source_map : list SourceMapEntry) : Run unit :=
  print ([NL] ++ replicate 80 45%N) ;;
  print (py "SOURCE MAP (match these to the [Source N] citations in the answer)") ;;
  print (replicate 80 45%N) ;;
  for_each (take 50 source_map) (fun s =>
    print (source_line s) ;;
    print (snippet_line s)) ;;
  if (50 <? length source_map)%nat
  then print (py "...and " ++ str_int (Z.of_nat (length source_map) - 50)
                ++ py " more chunks.")
  else ret tt.

Definition answer_with_citations (pdf_paths : list pystr) (query : pystr)
    (top_k chunk_size chunk_overlap : Z) (model : pystr) : Run unit :=
  print (loading_line pdf_paths) ;;
  documents ← call (EvLoad pdf_paths) (load_data pdf_paths);
  let embed := EMBED_MODEL in
  index ← call (EvIndex embed) (from_documents documents embed);
  retrieved ← call (EvRetrieve top_k query) (retrieve index top_k query);
  match retrieved with
  | [] => print NO_RESULTS_MESSAGE
  | _ :: _ =>
      '(numbered_nodes, source_map) ←
        lift (_split_and_number SentenceSplitter retrieved chunk_size chunk_overlap);
      let synth_kwargs := synth_kwargs model in
      print (py "Generating answer...") ;;
      resp ← call (EvSynthesize synth_kwargs query numbered_nodes)
               (asynthesize synth_kwargs query numbered_nodes);
      print ([NL] ++ replicate 80 61%N) ;;
      print (py "FINAL ANSWER") ;;
      print (replicate 80 61%N) ;;
      print (final_text resp) ;;
      show_source_map source_map
  end.

(** The parsed command line. *)
Record Args : Type := mkArgs {
  pdf : list pystr;
  query : pystr;
  top_k : Z;
  chunk_size : Z;
  chunk_overlap : Z;
  model : pystr
}.

(** [main] from its first line: the events and the exit status.  The
    variable [OPENAI_API_KEY] is passed as found in the environment and is
    tested first.  Then [parse_args] either ends the program with a status
    of its own (2 for a command line it refuses, 0 after its help text; what
    it writes is the library's and is not recorded) or returns the
    arguments.  Then the run: [KeyboardInterrupt] prints "Interrupted." and
    [main] returns, any other exception prints "Fatal error:" with its
    [repr] and exits with status 1. *)
Definition main_entry (OPENAI_API_KEY : option pystr) (parse_args : Z + Args)
    : list Event * Z :=
  match OPENAI_API_KEY with
  | None | Some [] =>
      ([EvPrint (py "Error: OPENAI_API_KEY is not set. Example:");
        EvPrint (py "  export OPENAI_API_KEY='sk-...'")], 1)
  | Some (_ :: _) =>
      match parse_args with
      | inl status => ([], status)
      | inr args =>
          match answer_with_citations (pdf args) (query args) (top_k args)
                  (chunk_size args) (chunk_overlap args) (model args) with
          | (tr, inr _) => (tr, 0)
          | (tr, inl KeyboardInterrupt) =>
              (tr ++ [EvPrint ([NL] ++ py "Interrupted.")], 0)
          | (tr, inl (Raised repr)) =>
              (tr ++ [EvPrint ([NL] ++ py "Fatal error: " ++ repr)], 1)
          end
      end
  end.

(** [main] for a command line that [parse_args] accepts, with the
    arguments it returns. *)
Definition main (OPENAI_API_KEY : option pystr) (args : Args)
    : list Event * Z :=
  main_entry OPENAI_API_KEY (inr args).

End Driver.

(** The events of a run up to and including its retrieval call, when
    loading and indexing succeed. *)
Definition through_retrieval (pdf_paths : list pystr) (top_k : Z)
    (query : pystr) : list Event :=
  [EvPrint (loading_line pdf_paths); EvLoad pdf_paths; EvIndex EMBED_MODEL;
   EvRetrieve top_k query].

(** The lines printed by a run, and its calls to the synthesizer. *)
Definition printed (tr : list Event) : list pystr :=
  omap (fun ev => match ev with EvPrint l => Some l | _ => None end) tr.

Definition is_retrieve (ev : Event) : bool :=
  match ev with EvRetrieve _ _ => true | _ => false end.

Definition is_synthesize (ev : Event) : bool :=
  match ev with EvSynthesize _ _ _ => true | _ => false end.

(** ** The source map printer of [citation_query_engine.py]

    The second script leaves chunking and synthesis to the library's
    citation query engine and only prints the source nodes of the response. *)

Module CitationQueryEngine.

(** [str.isspace] for one code point. *)
Definition isspace (c : N) : bool :=
  ((9 <=? c) && (c <=? 13) || (28 <=? c) && (c <=? 32) || (c =? 133)
   || (c =? 160) || (c =? 5760) || (8192 <=? c) && (c <=? 8202)
   || (c =? 8232) || (c =? 8233) || (c =? 8239) || (c =? 8287)
   || (c =? 12288))%N.

Fixpoint lstrip (s : pystr) : pystr :=
  match s with
  | [] => []
  | c :: rest => if isspace c then lstrip rest else s
  end.

(** [s.strip()]. *)
Definition strip (s : pystr) : pystr := reverse (lstrip (reverse (lstrip s))).

Section Printer.

(** The format [{score:.3f}] of a [float]. *)
Variable float_fmt3 : float -> pystr.

(** Lines 91 to 99. *)
Definition head_line (i : Z) (sn : NodeWithScore) : pystr :=
  let meta := metadata (node sn) in
  let file_name :=
    dict_get meta "file_name" |or| dict_get meta "file_path"
      |or| VStr (py "unknown_file") in
  let page :=
    dict_get meta "page_label" |or| dict_get meta "page"
      |or| dict_get meta "page_number" in
  let head := py "[" ++ str_int i ++ py "] file=" ++ py_str file_name in
  let head :=
    match page with
    | VNone => head
    | _ => head ++ py " page=" ++ py_str page
    end in
  match score sn with
  | None => head
  | Some x => head ++ py " score=" ++ float_fmt3 x
  end.

(** Lines 103 to 106; [get_content] does not raise in this model, so the
    handler of line 107 is never entered. *)
Definition snippet_line (sn : NodeWithScore) : pystr :=
  let text := replace_nl (strip (get_content (node sn))) in
  let text :=
    if (220 <? length text)%nat then take 220 text ++ py " ..." else text in
  py "  " ++ [9492%N; 9472%N] ++ py " " ++ text.

(** The loop of line 90, with the index that [enumerate] counts from 1. *)
Fixpoint print_nodes (i : Z) (source_nodes : list NodeWithScore) : Run unit :=
  match source_nodes with
  | [] => ret tt
  | sn :: rest =>
      print (head_line i sn) ;;
      print (snippet_line sn) ;;
      print_nodes (i + 1) rest
  end.

(** [source_nodes] is [None] when the response has no such attribute. *)
Definition print_source_map (source_nodes : option (list NodeWithScore))
    : Run unit :=
  print ([NL] ++ py "=== SOURCE MAP ===") ;;
  match source_nodes with
  | None | Some [] => print (py "(no source nodes returned)")
  | Some (sn :: rest) => print_nodes 1 (sn :: rest)
  end.

End Printer.

(** *** The script's [main] *)

(** The parsed command line of the second script. *)
Record Options : Type := mkOptions {
  pdf : list pystr;
  query : pystr;
  top_k : Z;
  citation_chunk_size : Z;
  citation_chunk_overlap : Z;
  model : pystr;
  embed_model : pystr
}.

(** What [engine.query] returns: [str(response)] and the attribute
    [source_nodes], which may be missing. *)
Record QueryResponse : Type := mkQueryResponse {
  str_response : pystr;
  source_nodes : option (list NodeWithScore)
}.

(** What the script does to the outside: lines on the two output streams,
    the file test, and the calls into the library. *)
Inductive Effect : Type :=
  | Stdout (line : pystr)
  | Stderr (line : pystr)
  | PathExists (path : pystr)
  | LoadData (input_files required_exts : list pystr)
  | FromDocuments (embed_model : pystr)
  | FromArgs (model : pystr)
      (similarity_top_k citation_chunk_size citation_chunk_overlap : Z)
  | Query (query : pystr).

(** [sys.exit(status)], or an exception that nothing catches. *)
Inductive Stop : Type :=
  | SysExit (status : Z)
  | Uncaught (e : PyExc).

Definition Script (A : Type) : Type := list Effect * (Stop + A).

Definition script_ret {A} (x : A) : Script A := ([], inr x).

Definition script_bind {A B} (f : A -> Script B) (m : Script A) : Script B :=
  match m with
  | (tr, inl stop) => (tr, inl stop)
  | (tr, inr x) => let '(tr', r) := f x in (tr ++ tr', r)
  end.

#[global] Instance Script_ret : MRet Script := @script_ret.
#[global] Instance Script_bind : MBind Script := @script_bind.

Definition out (line : pystr) : Script unit := ([Stdout line], inr tt).
Definition err (line : pystr) : Script unit := ([Stderr line], inr tt).
Definition exit {A} (status : Z) : Script A := ([], inl (SysExit status)).

(** A call into the library: recorded, then it returns or raises. *)
Definition invoke {A} (ev : Effect) (r : PyExc + A) : Script A :=
  ([ev], match r with inl e => inl (Uncaught e) | inr x => inr x end).

(** The lines of a printer of the first kind, on standard output. *)
Definition of_run {A} (r : Run A) : Script A :=
  (Stdout <$> printed r.1,
   match r.2 with inl e => inl (Uncaught e) | inr x => inr x end).

Section Main.

(** The file system, the library, and the formatting of a score. *)
Variables Document Index Engine : Type.
Variable path_exists : pystr -> bool.
Variable abspath : pystr -> pystr.
Variable load_data : list pystr -> PyExc + list Document.
Variable from_documents : list Document -> pystr -> PyExc + Index.
Variable from_args : Index -> pystr -> Z -> Z -> Z -> PyExc + Engine.
Variable engine_query : Engine -> pystr -> PyExc + QueryResponse.
Variable float_fmt3 : float -> pystr.

(** Lines 36 to 44. *)
Definition load_pdfs (file_paths : list pystr) : Script (list Document) :=
  invoke (LoadData file_paths [py ".pdf"]) (load_data file_paths).

(** Lines 47 to 51. *)
Definition build_index (documents : list Document) (embed_model_name : pystr)
    : Script Index :=
  invoke (FromDocuments embed_model_name) (from_documents documents embed_model_name).

(** Lines 54 to 77. *)
Definition make_citation_engine (index : Index) (model_name : pystr)
    (top_k citation_chunk_size citation_chunk_overlap : Z) : Script Engine :=
  invoke (FromArgs model_name top_k citation_chunk_size citation_chunk_overlap)
    (from_args index model_name top_k citation_chunk_size citation_chunk_overlap).

(** [os.path.exists(p)]. *)
Definition exists_ (p : pystr) : Script bool :=
  ([PathExists p], inr (path_exists p)).

(** The loop of lines 163 to 167, with the list [pdfs] it appends to. *)
Fixpoint validate_files (paths pdfs : list pystr) : Script (list pystr) :=
  match paths with
  | [] => mret pdfs
  | p :: paths =>
      found ← exists_ p;
      if found : bool then validate_files paths (pdfs ++ [abspath p])
      else err (py "ERROR: File not found: " ++ p) ;; exit 2
  end.

(** [main] for a command line that [parse_args] accepts, with the arguments
    it returns; [sys.exit] and an uncaught exception both end it. *)
Definition main (OPENAI_API_KEY : option pystr) (args : Options) : Script unit :=
  match OPENAI_API_KEY with
  | None | Some [] =>
      err (py "ERROR: OPENAI_API_KEY is not set in the environment.") ;; exit 2
  | Some (_ :: _) =>
      pdfs ← validate_files (pdf args) [];
      out (py "Loading PDFs...") ;;
      documents ← load_pdfs pdfs;
      match documents with
      | [] => err (py "No documents loaded from the provided PDFs.") ;; exit 1
      | _ :: _ =>
          out (py "Building index...") ;;
          index ← build_index documents (embed_model args);
          out (py "Creating citation query engine...") ;;
          engine ← make_citation_engine index (model args) (top_k args)
                     (citation_chunk_size args) (citation_chunk_overlap args);
          out ([NL] ++ py "=== QUERY ===") ;;
          out (query args) ;;
          response ← invoke (Query (query args)) (engine_query engine (query args));
          out ([NL] ++ py "=== ANSWER (with inline citations) ===") ;;
          out (strip (str_response response)) ;;
          of_run (print_source_map float_fmt3 (source_nodes response))
      end
  end.

(** [main] from its first line: [parse_args] comes first and either ends the
    program with a status of its own (2 for a command line it refuses, 0
    after its help text; what it writes is the library's and is not
    recorded) or returns the arguments. *)
Definition main_entry (parse_args : Z + Options)
    (OPENAI_API_KEY : option pystr) : Script unit :=
  match parse_args with
  | inl status => exit status
  | inr args => main OPENAI_API_KEY args
  end.

End Main.

(** The calls into the library among the effects of a run. *)
Definition is_library_call (ev : Effect) : bool :=
  match ev with
  | LoadData _ _ | FromDocuments _ | FromArgs _ _ _ _ | Query _ => true
  | Stdout _ | Stderr _ | PathExists _ => false
  end.

Definition library_calls (tr : list Effect) : list Effect :=
  List.filter is_library_call tr.

End CitationQueryEngine.

(** ** Stand-ins for the collaborators

    Small executable collaborators, used to run the model on concrete
    inputs.  None of them is part of the program. *)

Module Sample.

(** Windows of [size] code points, each starting [step] after the
    previous one. *)
Fixpoint windows (fuel size step : nat) (s : pystr) : list pystr :=
  match fuel with
  | O => []
  | S fuel =>
      match s with
      | [] => []
      | _ :: _ =>
          take size s ::
            (if (length s <=? size)%nat then []
             else windows fuel size step (drop step s))
      end
  end.

(** The empty text comes back as one empty chunk.  Of any other text the
    windows are stripped and the blank ones dropped, so a text of white space
    only has no chunk.  The library's splitter does the same in both cases. *)
Definition split_text (chunk_size chunk_overlap : Z) (s : pystr)
    : list pystr :=
  match s with
  | [] => [[]]
  | _ :: _ =>
      List.filter (fun chunk => match chunk with [] => false | _ :: _ => true end)
        (CitationQueryEngine.strip
           <$> windows (length s) (Z.to_nat chunk_size)
                 (Nat.max 1 (Z.to_nat (chunk_size - chunk_overlap))) s)
  end.

(** A splitter that refuses an overlap larger than the chunk size, as the
    library's constructor does. *)
Definition SentenceSplitter (chunk_size chunk_overlap : Z)
    : PyExc + (pystr -> list pystr) :=
  if chunk_size <? chunk_overlap
  then inl (Raised (py "ValueError('Got a larger chunk overlap than chunk size.')"))
  else inr (split_text chunk_size chunk_overlap).

(** The documents and the index are the corpus itself; retrieval returns
    its first [top_k] passages. *)
Definition load_data (corpus : list NodeWithScore) (pdf_paths : list pystr)
    : PyExc + list NodeWithScore := inr corpus.

Definition from_documents (documents : list NodeWithScore) (embed : pystr)
    : PyExc + list NodeWithScore := inr documents.

Definition retrieve (index : list NodeWithScore) (top_k : Z) (query : pystr)
    : PyExc + list NodeWithScore := inr (take (Z.to_nat top_k) index).

(** A synthesizer that answers without sources when it is given none. *)
Definition asynthesize (cfg : SynthConfig) (query : pystr)
    (nodes : list NodeWithScore) : PyExc + Response :=
  inr {| response :=
           VStr (match nodes with
                 | [] => py "Empty Response"
                 | _ :: _ => py "Yes [Source 1]."
                 end);
         response_text := VNone;
         response_str := [] |}.

Definition float_str (x : float) : pystr := py "0.5".

Definition passage (s : string) (meta : gmap string PyVal)
    (score : option float) : NodeWithScore :=
  {| node := {| text := py s; metadata := meta |}; score := score |}.

(** Two passages: one with provenance and a score, one with neither. *)
Definition corpus : list NodeWithScore :=
  [ passage "abcdefg"
      {[ "file_path" := VStr (py "a.pdf"); "page_label" := VStr (py "3") ]}
      (Some 0.5%float);
    passage "xy" ∅ None ].

Definition run (corpus : list NodeWithScore) (query : pystr)
    (top_k chunk_size chunk_overlap : Z) : Run unit :=
  answer_with_citations _ _ (load_data corpus) from_documents retrieve
    SentenceSplitter asynthesize float_str
    [py "a.pdf"] query top_k chunk_size chunk_overlap (py "gpt-5-nano").

Definition args (top_k chunk_size chunk_overlap : Z) : Args :=
  {| pdf := [py "a.pdf"]; query := py "q"; top_k := top_k;
     chunk_size := chunk_size; chunk_overlap := chunk_overlap;
     model := py "gpt-5-nano" |}.

Definition run_main (corpus : list NodeWithScore) (key : option pystr)
    (args : Args) : list Event * Z :=
  main _ _ (load_data corpus) from_documents retrieve
    SentenceSplitter asynthesize float_str key args.

(** A passage of 51 code points. *)
Definition long_passage : NodeWithScore :=
  {| node := {| text := replicate 51 97%N; metadata := ∅ |};
     score := Some 0.5%float |}.

End Sample.

(** Stand-ins for the file system and the library of the second script. *)
Module SampleEngine.

Definition path_exists (p : pystr) : bool := negb (bool_decide (p = py "gone.pdf")).

Definition abspath (p : pystr) : pystr := py "/work/" ++ p.

(** One document per file. *)
Definition load_data (input_files : list pystr) : PyExc + list pystr :=
  inr input_files.

Definition from_documents (documents : list pystr) (embed : pystr)
    : PyExc + unit := inr tt.

Definition from_args (index : unit) (model : pystr) (top_k size overlap : Z)
    : PyExc + unit := inr tt.

Definition engine_query (engine : unit) (query : pystr)
    : PyExc + CitationQueryEngine.QueryResponse :=
  inr {| CitationQueryEngine.str_response := py " Yes [1]. ";
         CitationQueryEngine.source_nodes := Some Sample.corpus |}.

Definition options (paths : list pystr) : CitationQueryEngine.Options :=
  {| CitationQueryEngine.pdf := paths;
     CitationQueryEngine.query := py "q";
     CitationQueryEngine.top_k := 4;
     CitationQueryEngine.citation_chunk_size := 80;
     CitationQueryEngine.citation_chunk_overlap := 10;
     CitationQueryEngine.model := py "gpt-5-nano";
     CitationQueryEngine.embed_model := py "text-embedding-3-small" |}.

Definition main (key : option pystr) (paths : list pystr)
    : CitationQueryEngine.Script unit :=
  CitationQueryEngine.main _ _ _ path_exists abspath load_data from_documents
    from_args engine_query Sample.float_str key (options paths).

End SampleEngine.

(** ** Closed form of the chunker loops *)

(** The chunks of all passages, each paired with its parent passage, in
    passage order and, inside a passage, in the splitter's order. *)
Definition passage_chunks (split_text : pystr -> list pystr)
    (nodes : list NodeWithScore) : list (NodeWithScore * pystr) :=
  nws ← nodes; (fun chunk => (nws, chunk)) <$> split_text (get_content (node nws)).

(** The unit and the map entry that label [k] gives to one chunk. *)
Definition unit_of (k : Z) (pc : NodeWithScore * pystr) : NodeWithScore :=
  {| node :=
       {| text := labeled_text k pc.2;
          metadata := <["source_index" := VInt k]>
                        (<["file_path" := file_path_of (metadata (node pc.1))]>
                           (<["page" := page_of (metadata (node pc.1))]> ∅)) |};
     score := score pc.1 |}.

Definition entry_of (k : Z) (pc : NodeWithScore * pystr) : SourceMapEntry :=
  {| src_N := k;
     src_file_path := file_path_of (metadata (node pc.1));
     src_page := page_of (metadata (node pc.1));
     src_score := score pc.1;
     src_snippet := replace_nl (take 240 pc.2) |}.

Fixpoint numbered_from {A B : Type} (f : Z -> A -> B) (k : Z) (l : list A)
    : list B :=
  match l with
  | [] => []
  | x :: l => f k x :: numbered_from f (k + 1) l
  end.

Lemma numbered_from_app {A B} (f : Z -> A -> B) k (l1 l2 : list A) :
  numbered_from f k (l1 ++ l2) =
  numbered_from f k l1 ++ numbered_from f (k + Z.of_nat (length l1)) l2.
Proof.
  revert k. induction l1 as [|x l1 IH]; intros k; simpl.
  - by rewrite Z.add_0_r.
  - rewrite IH. do 3 f_equal. lia.
Qed.

Lemma length_numbered_from {A B} (f : Z -> A -> B) k (l : list A) :
  length (numbered_from f k l) = length l.
Proof. revert k. induction l; intros; simpl; auto. Qed.

Lemma lookup_numbered_from {A B} (f : Z -> A -> B) k (l : list A) (i : nat) :
  numbered_from f k l !! i = f (k + Z.of_nat i) <$> l !! i.
Proof.
  revert k i. induction l as [|x l IH]; intros k [|i]; simpl; try done.
  - by rewrite Z.add_0_r.
  - rewrite IH. do 2 f_equal. lia.
Qed.

Lemma fmap_numbered_from {A B C} (g : B -> C) (f : Z -> A -> B) k (l : list A) :
  g <$> numbered_from f k l = numbered_from (fun k x => g (f k x)) k l.
Proof. revert k. induction l; intros; simpl; f_equal; auto. Qed.

Lemma numbered_from_seqZ {A} k (l : list A) :
  numbered_from (fun k _ => k) k l = seqZ k (Z.of_nat (length l)).
Proof.
  revert k. induction l as [|x l IH]; intros k.
  - done.
  - cbn [numbered_from length]. rewrite IH.
    rewrite Nat2Z.inj_succ, (seqZ_cons k) by lia.
    f_equal. f_equal; lia.
Qed.

Lemma number_chunks_closed nws chunks st :
  foldl (number_chunk nws (file_path_of (metadata (node nws)))
           (page_of (metadata (node nws)))) st chunks =
  let pcs := (fun chunk => (nws, chunk)) <$> chunks in
  {| numbered_nodes := numbered_nodes st ++ numbered_from unit_of (counter st) pcs;
     source_map := source_map st ++ numbered_from entry_of (counter st) pcs;
     counter := counter st + Z.of_nat (length pcs) |}.
Proof.
  revert st. induction chunks as [|c chunks IH]; intros st.
  - destruct st; simpl. by rewrite !app_nil_r, Z.add_0_r.
  - cbn [foldl]. rewrite IH. cbv zeta. rewrite fmap_cons.
    cbn [numbered_from length number_chunk numbered_nodes source_map counter].
    rewrite <- !app_assoc, Nat2Z.inj_succ. f_equal. lia.
Qed.


Lemma number_nodes_closed split_text nodes st :
  foldl (number_node split_text) st nodes =
  let pcs := passage_chunks split_text nodes in
  {| numbered_nodes := numbered_nodes st ++ numbered_from unit_of (counter st) pcs;
     source_map := source_map st ++ numbered_from entry_of (counter st) pcs;
     counter := counter st + Z.of_nat (length pcs) |}.
Proof.
  revert st. induction nodes as [|nws nodes IH]; intros st.
  - destruct st; simpl. by rewrite !app_nil_r, Z.add_0_r.
  - cbn [foldl]. rewrite IH. cbv zeta.
    unfold number_node. cbv zeta. rewrite number_chunks_closed. cbv zeta.
    cbn [numbered_nodes source_map counter].
    unfold passage_chunks. rewrite bind_cons.
    rewrite !numbered_from_app, <- !app_assoc, length_app, Nat2Z.inj_add.
    f_equal. lia.
Qed.

Lemma split_and_number_loop_closed split_text nodes :
  let pcs := passage_chunks split_text nodes in
  numbered_nodes (split_and_number_loop split_text nodes) = numbered_from unit_of 1 pcs
  /\ source_map (split_and_number_loop split_text nodes) = numbered_from entry_of 1 pcs.
Proof.
  unfold split_and_number_loop. rewrite number_nodes_closed. simpl. done.
Qed.

(** What a successful call of [_split_and_number] returns. *)
Lemma split_and_number_closed SentenceSplitter nodes chunk_size chunk_overlap
    split_text nn sm :
  SentenceSplitter chunk_size chunk_overlap = inr split_text ->
  _split_and_number SentenceSplitter nodes chunk_size chunk_overlap = inr (nn, sm) ->
  nn = numbered_from unit_of 1 (passage_chunks split_text nodes)
  /\ sm = numbered_from entry_of 1 (passage_chunks split_text nodes).
Proof.
  unfold _split_and_number. intros -> [= <- <-].
  apply split_and_number_loop_closed.
Qed.

Ltac chunker_closed Hsplit Hrun :=
  destruct (split_and_number_closed _ _ _ _ _ _ _ Hsplit Hrun) as [-> ->].

Lemma lookup_unit_of k pcs (i : nat) pc :
  pcs !! i = Some pc ->
  numbered_from unit_of k pcs !! i = Some (unit_of (k + Z.of_nat i) pc).
Proof. intros H. by rewrite lookup_numbered_from, H. Qed.

Lemma lookup_entry_of k pcs (i : nat) pc :
  pcs !! i = Some pc ->
  numbered_from entry_of k pcs !! i = Some (entry_of (k + Z.of_nat i) pc).
Proof. intros H. by rewrite lookup_numbered_from, H. Qed.

Lemma lookup_numbered_from_Some {A B} (f : Z -> A -> B) k (l : list A) (i : nat) y :
  numbered_from f k l !! i = Some y ->
  exists x, l !! i = Some x /\ y = f (k + Z.of_nat i) x.
Proof.
  rewrite lookup_numbered_from. destruct (l !! i) as [x|]; [|done].
  intros [= <-]. eauto.
Qed.

Lemma py_or_truthy a b : truthy a = true -> a |or| b = a.
Proof. unfold py_or. by intros ->. Qed.

Lemma py_or_falsy a b : truthy a = false -> a |or| b = b.
Proof. unfold py_or. by intros ->. Qed.

(** ** Properties of the chunker *)

(** C1. For a non-empty sequence of retrieved passages the labels given by
    [_split_and_number] are exactly 1, 2, ..., N, where N is the total
    number of chunks: the i-th chunk in passage order and then chunk order
    gets label i, in the source map and in the metadata of the unit, so the
    labels increase strictly and none occurs twice. *)
Theorem C1_labels_contiguous SentenceSplitter nodes chunk_size chunk_overlap
    split_text nn sm :
  nodes <> [] ->
  SentenceSplitter chunk_size chunk_overlap = inr split_text ->
  _split_and_number SentenceSplitter nodes chunk_size chunk_overlap = inr (nn, sm) ->
  let pcs := passage_chunks split_text nodes in
  src_N <$> sm = seqZ 1 (Z.of_nat (length pcs))
  /\ (fun u => metadata (node u) !! "source_index") <$> nn
       = (fun k => Some (VInt k)) <$> seqZ 1 (Z.of_nat (length pcs))
  /\ (forall (i : nat) pc, pcs !! i = Some pc ->
        exists u e, nn !! i = Some u /\ sm !! i = Some e
          /\ src_N e = Z.of_nat i + 1
          /\ metadata (node u) !! "source_index" = Some (VInt (Z.of_nat i + 1))
          /\ text (node u) = labeled_text (Z.of_nat i + 1) pc.2
          /\ score u = score pc.1)
  /\ (forall (i j : nat) e e', (i < j)%nat ->
        sm !! i = Some e -> sm !! j = Some e' -> src_N e < src_N e')
  /\ NoDup (src_N <$> sm).
Proof.
  intros _ Hsplit Hrun pcs. chunker_closed Hsplit Hrun. fold pcs.
  assert (Hlabels : src_N <$> numbered_from entry_of 1 pcs
                    = seqZ 1 (Z.of_nat (length pcs))).
  { rewrite fmap_numbered_from. apply numbered_from_seqZ. }
  repeat split.
  - exact Hlabels.
  - rewrite fmap_numbered_from.
    rewrite <- numbered_from_seqZ, fmap_numbered_from. done.
  - intros i pc Hpc. exists (unit_of (1 + Z.of_nat i) pc), (entry_of (1 + Z.of_nat i) pc).
    rewrite (lookup_unit_of _ _ _ _ Hpc), (lookup_entry_of _ _ _ _ Hpc).
    replace (Z.of_nat i + 1) with (1 + Z.of_nat i) by lia.
    repeat split.
  - intros i j e e' Hij Hi Hj.
    apply lookup_numbered_from_Some in Hi as (? & _ & ->).
    apply lookup_numbered_from_Some in Hj as (? & _ & ->).
    simpl. lia.
  - rewrite Hlabels. apply NoDup_seqZ.
Qed.

Lemma C1_labels_contiguous_witness :
  exists nn sm,
    Sample.corpus <> []
    /\ _split_and_number Sample.SentenceSplitter Sample.corpus 3 1 = inr (nn, sm)
    /\ src_N <$> sm = [1; 2; 3; 4].
Proof.
  eexists _, _. split; [discriminate|]. split; [reflexivity|].
  refine (proj1 (C1_labels_contiguous Sample.SentenceSplitter Sample.corpus 3 1
                   _ _ _ _ eq_refl eq_refl)).
  discriminate.
Defined.

(** C2, as the code has it. Every unit stores its chunk behind the rendering
    prefix: the text of the i-th unit is "Source i:", a newline, and then the
    raw i-th chunk of the passages. The prefix is added by the chunker, not
    by a later prompt render. *)
Theorem C2_units_store_labeled_chunks SentenceSplitter nodes chunk_size
    chunk_overlap split_text nn sm :
  SentenceSplitter chunk_size chunk_overlap = inr split_text ->
  _split_and_number SentenceSplitter nodes chunk_size chunk_overlap = inr (nn, sm) ->
  let pcs := passage_chunks split_text nodes in
  length nn = length pcs
  /\ forall (i : nat) u, nn !! i = Some u ->
       exists pc, pcs !! i = Some pc
         /\ pc.2 ∈ split_text (get_content (node pc.1))
         /\ text (node u)
            = py "Source " ++ str_int (Z.of_nat i + 1) ++ py ":" ++ [NL] ++ pc.2.
Proof.
  intros Hsplit Hrun pcs. chunker_closed Hsplit Hrun. fold pcs. split.
  - apply length_numbered_from.
  - intros i u Hu. apply lookup_numbered_from_Some in Hu as (pc & Hpc & ->).
    exists pc. split; [done|]. split.
    + apply list_elem_of_lookup_2 in Hpc. unfold pcs, passage_chunks in Hpc.
      apply list_elem_of_bind in Hpc as (nws & Hin & _).
      apply list_elem_of_fmap in Hin as (c & -> & Hc). done.
    + simpl. unfold labeled_text. by rewrite (Z.add_comm 1).
Qed.

Lemma C2_units_store_labeled_chunks_witness :
  exists nn sm,
    _split_and_number Sample.SentenceSplitter Sample.corpus 3 1 = inr (nn, sm)
    /\ length nn = 4%nat.
Proof.
  eexists _, _. split; [reflexivity|].
  exact (proj1 (C2_units_store_labeled_chunks Sample.SentenceSplitter
                  Sample.corpus 3 1 _ _ _ eq_refl eq_refl)).
Defined.

(** C2 as stated fails: the one unit made from the passage "abc", whose only
    chunk is "abc", stores "Source 1:" and a newline before the chunk. *)
Lemma C2_counterexample :
  exists split_text u sm,
    Sample.SentenceSplitter 3 1 = inr split_text
    /\ split_text (py "abc") = [py "abc"]
    /\ _split_and_number Sample.SentenceSplitter [Sample.passage "abc" ∅ None] 3 1
       = inr ([u], sm)
    /\ text (node u) = py "Source 1:" ++ [NL] ++ py "abc"
    /\ text (node u) <> py "abc".
Proof.
  eexists _, _, _. split; [reflexivity|]. split; [reflexivity|].
  split; [reflexivity|]. split; [reflexivity|]. discriminate.
Qed.

(** C5. Every unit made from a passage carries the provenance of that
    passage: the file and the page read from the metadata of the passage, and
    its score, in the metadata of the unit as in the source map entry; a file
    path or page label present in the metadata of the passage is carried
    as it is. All chunks of one passage therefore agree on file, page and
    score. *)
Theorem C5_provenance_preserved SentenceSplitter nodes chunk_size chunk_overlap
    split_text nn sm :
  SentenceSplitter chunk_size chunk_overlap = inr split_text ->
  _split_and_number SentenceSplitter nodes chunk_size chunk_overlap = inr (nn, sm) ->
  forall (i : nat) u e, nn !! i = Some u -> sm !! i = Some e ->
    exists parent chunk,
      passage_chunks split_text nodes !! i = Some (parent, chunk)
      /\ parent ∈ nodes
      /\ metadata (node u) !! "file_path" = Some (file_path_of (metadata (node parent)))
      /\ metadata (node u) !! "page" = Some (page_of (metadata (node parent)))
      /\ score u = score parent
      /\ src_file_path e = file_path_of (metadata (node parent))
      /\ src_page e = page_of (metadata (node parent))
      /\ src_score e = score parent
      /\ (forall v, metadata (node parent) !! "file_path" = Some v ->
            truthy v = true -> src_file_path e = v)
      /\ (forall v, metadata (node parent) !! "page_label" = Some v ->
            truthy v = true -> src_page e = v).
Proof.
  intros Hsplit Hrun i u e Hu He. chunker_closed Hsplit Hrun.
  apply lookup_numbered_from_Some in Hu as ([parent chunk] & Hpc & ->).
  apply lookup_numbered_from_Some in He as (pc' & Hpc' & ->).
  rewrite Hpc in Hpc'. injection Hpc' as <-.
  exists parent, chunk. split; [done|]. split.
  { apply list_elem_of_lookup_2 in Hpc. unfold passage_chunks in Hpc.
    apply list_elem_of_bind in Hpc as (nws & Hin & Hnws).
    apply list_elem_of_fmap in Hin as (c & [= -> ->] & _). done. }
  cbn [unit_of entry_of node metadata score src_file_path src_page src_score fst].
  rewrite lookup_insert_ne, lookup_insert_eq by done.
  rewrite !lookup_insert_ne, lookup_insert_eq by done.
  repeat split.
  - intros v Hv Ht. unfold file_path_of, dict_get. rewrite Hv. simpl.
    by rewrite !(py_or_truthy v).
  - intros v Hv Ht. unfold page_of, dict_get. rewrite Hv. simpl.
    by rewrite !(py_or_truthy v).
Qed.

Lemma C5_provenance_preserved_witness :
  exists nn sm u e,
    Sample.SentenceSplitter 3 1 = inr (Sample.split_text 3 1)
    /\ _split_and_number Sample.SentenceSplitter Sample.corpus 3 1 = inr (nn, sm)
    /\ nn !! 1%nat = Some u /\ sm !! 1%nat = Some e
    /\ exists parent chunk,
         passage_chunks (Sample.split_text 3 1) Sample.corpus !! 1%nat
           = Some (parent, chunk)
         /\ src_file_path e = file_path_of (metadata (node parent)).
Proof.
  eexists _, _, _, _.
  split; [reflexivity|]. split; [reflexivity|].
  split; [reflexivity|]. split; [reflexivity|].
  destruct (C5_provenance_preserved Sample.SentenceSplitter Sample.corpus 3 1
              _ _ _ eq_refl eq_refl 1%nat _ _ eq_refl eq_refl)
    as (parent & chunk & Hpc & _ & _ & _ & _ & Hfile & _).
  exists parent, chunk. split; [exact Hpc | exact Hfile].
Defined.

Lemma length_replace_nl s : length (replace_nl s) = length s.
Proof. apply length_fmap. Qed.

Lemma replace_nl_no_newline s : NL ∉ replace_nl s.
Proof.
  unfold replace_nl. intros (c & Hc & _)%list_elem_of_fmap.
  destruct (N.eqb_spec c NL); [discriminate | congruence].
Qed.

Lemma lookup_replace_nl s (j : nat) :
  replace_nl s !! j = (fun c => if (c =? NL)%N then SPACE else c) <$> s !! j.
Proof. apply list_lookup_fmap. Qed.

(** C6. The source map has exactly one entry per unit, in the order of the
    units, which is the order of the labels: the i-th entry has label i and
    describes the i-th unit. Its snippet is a preview of at most 240 code
    points of the chunk of the unit, and its file, page and score are those
    of the unit; a passage without a score gives an entry whose score is
    absent ([None]), not a number. *)
Theorem C6_source_map_entry_per_unit SentenceSplitter nodes chunk_size
    chunk_overlap split_text nn sm :
  SentenceSplitter chunk_size chunk_overlap = inr split_text ->
  _split_and_number SentenceSplitter nodes chunk_size chunk_overlap = inr (nn, sm) ->
  length sm = length nn
  /\ forall (i : nat) u, nn !! i = Some u ->
       exists e parent chunk,
         sm !! i = Some e
         /\ passage_chunks split_text nodes !! i = Some (parent, chunk)
         /\ src_N e = Z.of_nat i + 1
         /\ metadata (node u) !! "source_index" = Some (VInt (src_N e))
         /\ text (node u) = labeled_text (src_N e) chunk
         /\ src_snippet e = replace_nl (take 240 chunk)
         /\ (length (src_snippet e) <= 240)%nat
         /\ metadata (node u) !! "file_path" = Some (src_file_path e)
         /\ metadata (node u) !! "page" = Some (src_page e)
         /\ src_score e = score u
         /\ src_score e = score parent
         /\ (score parent = None -> src_score e = None).
Proof.
  intros Hsplit Hrun. chunker_closed Hsplit Hrun. split.
  - by rewrite !length_numbered_from.
  - intros i u Hu.
    apply lookup_numbered_from_Some in Hu as ([parent chunk] & Hpc & ->).
    exists (entry_of (1 + Z.of_nat i) (parent, chunk)), parent, chunk.
    rewrite (lookup_entry_of _ _ _ _ Hpc).
    cbn [unit_of entry_of node metadata text score src_N src_file_path src_page
         src_score src_snippet fst snd].
    rewrite lookup_insert_eq.
    rewrite (lookup_insert_ne _ "source_index" "file_path"), lookup_insert_eq by done.
    rewrite !lookup_insert_ne, lookup_insert_eq by done.
    repeat split; try done; try lia.
    rewrite length_replace_nl, length_take. lia.
Qed.

Lemma C6_source_map_entry_per_unit_witness :
  exists nn sm,
    Sample.SentenceSplitter 3 1 = inr (Sample.split_text 3 1)
    /\ _split_and_number Sample.SentenceSplitter Sample.corpus 3 1 = inr (nn, sm)
    /\ length sm = length nn.
Proof.
  eexists _, _. split; [reflexivity|]. split; [reflexivity|].
  exact (proj1 (C6_source_map_entry_per_unit Sample.SentenceSplitter Sample.corpus
                  3 1 _ _ _ eq_refl eq_refl)).
Defined.

(** C7, as the code has it. When the metadata of a passage has none of the
    keys page_label, page_number and page, every unit made from the passage
    gets the location "?", in its metadata and in its source map entry. (The
    text "unknown" is the sentinel of a missing file, not of a missing
    location.) *)
Theorem C7_missing_location_sentinel SentenceSplitter nodes chunk_size
    chunk_overlap split_text nn sm :
  SentenceSplitter chunk_size chunk_overlap = inr split_text ->
  _split_and_number SentenceSplitter nodes chunk_size chunk_overlap = inr (nn, sm) ->
  forall (i : nat) parent chunk,
    passage_chunks split_text nodes !! i = Some (parent, chunk) ->
    metadata (node parent) !! "page_label" = None ->
    metadata (node parent) !! "page_number" = None ->
    metadata (node parent) !! "page" = None ->
    exists u e, nn !! i = Some u /\ sm !! i = Some e
      /\ metadata (node u) !! "page" = Some (VStr (py "?"))
      /\ src_page e = VStr (py "?").
Proof.
  intros Hsplit Hrun i parent chunk Hpc H1 H2 H3. chunker_closed Hsplit Hrun.
  eexists _, _.
  rewrite (lookup_unit_of _ _ _ _ Hpc), (lookup_entry_of _ _ _ _ Hpc).
  split; [done|]. split; [done|].
  cbn [unit_of entry_of node metadata src_page fst].
  rewrite !lookup_insert_ne, lookup_insert_eq by done.
  unfold page_of, dict_get. rewrite H1, H2, H3. done.
Qed.

Lemma C7_missing_location_sentinel_witness :
  exists nn sm u e,
    Sample.SentenceSplitter 3 1 = inr (Sample.split_text 3 1)
    /\ _split_and_number Sample.SentenceSplitter Sample.corpus 3 1 = inr (nn, sm)
    /\ nn !! 3%nat = Some u /\ sm !! 3%nat = Some e
    /\ src_page e = VStr (py "?").
Proof.
  destruct (C7_missing_location_sentinel Sample.SentenceSplitter Sample.corpus 3 1
              _ _ _ eq_refl eq_refl 3%nat (Sample.passage "xy" ∅ None) (py "xy")
              eq_refl eq_refl eq_refl eq_refl)
    as (u & e & Hu & He & _ & Hpage).
  eexists _, _, u, e. split; [reflexivity|]. split; [reflexivity|].
  split; [exact Hu|]. split; [exact He | exact Hpage].
Defined.

(** C7 as stated fails: a passage with empty metadata gives a unit whose
    location is "?", which is not "unknown". *)
Lemma C7_counterexample :
  exists u e,
    metadata (node (Sample.passage "xy" ∅ None)) = ∅
    /\ _split_and_number Sample.SentenceSplitter [Sample.passage "xy" ∅ None] 3 1
       = inr ([u], [e])
    /\ metadata (node u) !! "page" = Some (VStr (py "?"))
    /\ src_page e = VStr (py "?")
    /\ metadata (node u) !! "page" <> Some (VStr (py "unknown"))
    /\ src_page e <> VStr (py "unknown").
Proof.
  eexists _, _. split; [reflexivity|]. split; [reflexivity|].
  split; [reflexivity|]. split; [reflexivity|].
  split; vm_compute; discriminate.
Qed.

(** C10. The snippet of every source map entry is the first 240 code
    points of the raw chunk of its unit with each newline replaced by a
    space: it is as long as the chunk or 240 code points long, whichever is
    less, agrees with the chunk at every position except that a newline has
    become a space, and so has at most 240 code points and no newline. *)
Theorem C10_snippet_preview SentenceSplitter nodes chunk_size chunk_overlap
    split_text nn sm :
  SentenceSplitter chunk_size chunk_overlap = inr split_text ->
  _split_and_number SentenceSplitter nodes chunk_size chunk_overlap = inr (nn, sm) ->
  forall (i : nat) e, sm !! i = Some e ->
    exists parent chunk,
      passage_chunks split_text nodes !! i = Some (parent, chunk)
      /\ src_snippet e = replace_nl (take 240 chunk)
      /\ length (src_snippet e) = Nat.min 240 (length chunk)
      /\ (forall (j : nat) c, (j < 240)%nat -> chunk !! j = Some c ->
            src_snippet e !! j = Some (if (c =? 10)%N then 32%N else c))
      /\ (length (src_snippet e) <= 240)%nat
      /\ 10%N ∉ src_snippet e.
Proof.
  intros Hsplit Hrun i e He. chunker_closed Hsplit Hrun.
  apply lookup_numbered_from_Some in He as ([parent chunk] & Hpc & ->).
  exists parent, chunk. cbn [entry_of src_snippet snd].
  split; [done|]. split; [done|]. split; [|split; [|split]].
  - by rewrite length_replace_nl, length_take.
  - intros j c Hj Hc. by rewrite lookup_replace_nl, lookup_take_lt, Hc.
  - rewrite length_replace_nl, length_take. lia.
  - apply replace_nl_no_newline.
Qed.

Lemma C10_snippet_preview_witness :
  exists nn sm e,
    Sample.SentenceSplitter 3 1 = inr (Sample.split_text 3 1)
    /\ _split_and_number Sample.SentenceSplitter Sample.corpus 3 1 = inr (nn, sm)
    /\ sm !! 0%nat = Some e
    /\ exists parent chunk,
         passage_chunks (Sample.split_text 3 1) Sample.corpus !! 0%nat
           = Some (parent, chunk)
         /\ src_snippet e = replace_nl (take 240 chunk).
Proof.
  eexists _, _, _. split; [reflexivity|]. split; [reflexivity|].
  split; [reflexivity|].
  destruct (C10_snippet_preview Sample.SentenceSplitter Sample.corpus 3 1
              _ _ _ eq_refl eq_refl 0%nat _ eq_refl)
    as (parent & chunk & Hpc & Hsnip & _).
  exists parent, chunk. split; [exact Hpc | exact Hsnip].
Defined.

(** ** Closed form of the driver *)

Lemma for_each_two_prints {A} (l : list A) (f g : A -> pystr) :
  for_each l (fun x => print (f x) ;; print (g x))
  = (x ← l; [EvPrint (f x); EvPrint (g x)], inr tt).
Proof.
  induction l as [|x l IH]; [done|].
  cbn [for_each]. rewrite IH. done.
Qed.

Lemma printed_app tr1 tr2 : printed (tr1 ++ tr2) = printed tr1 ++ printed tr2.
Proof. apply omap_app. Qed.

Lemma printed_two_prints {A} (l : list A) (f g : A -> pystr) :
  printed (x ← l; [EvPrint (f x); EvPrint (g x)]) = x ← l; [f x; g x].
Proof.
  induction l as [|x l IH]; [done|].
  rewrite !bind_cons, printed_app, IH. done.
Qed.

Lemma lookup_pairs {A B} (l : list A) (f g : A -> B) (i : nat) :
  (x ← l; [f x; g x]) !! (2 * i)%nat = f <$> l !! i
  /\ (x ← l; [f x; g x]) !! (2 * i + 1)%nat = g <$> l !! i.
Proof.
  revert i. induction l as [|x l IH]; intros [|i]; try done.
  rewrite bind_cons.
  replace (2 * S i)%nat with (S (S (2 * i))) by lia.
  replace (S (S (2 * i)) + 1)%nat with (S (S (2 * i + 1))) by lia.
  apply IH.
Qed.

Lemma length_pairs {A B} (l : list A) (f g : A -> B) :
  length (x ← l; [f x; g x]) = (2 * length l)%nat.
Proof.
  induction l as [|x l IH]; [done|].
  rewrite bind_cons, length_app, IH. simpl. lia.
Qed.

Section DriverFacts.

Variables Documents Index : Type.
Variable load_data : list pystr -> PyExc + Documents.
Variable from_documents : Documents -> pystr -> PyExc + Index.
Variable retrieve : Index -> Z -> pystr -> PyExc + list NodeWithScore.
Variable SentenceSplitter : Z -> Z -> PyExc + (pystr -> list pystr).
Variable asynthesize :
  SynthConfig -> pystr -> list NodeWithScore -> PyExc + Response.
Variable float_str : float -> pystr.

Lemma show_source_map_closed sm :
  show_source_map float_str sm
  = ([EvPrint ([NL] ++ replicate 80 45%N);
      EvPrint (py "SOURCE MAP (match these to the [Source N] citations in the answer)");
      EvPrint (replicate 80 45%N)]
     ++ (s ← take 50 sm;
         [EvPrint (source_line float_str s); EvPrint (snippet_line s)])
     ++ (if (50 <? length sm)%nat
         then [EvPrint (py "...and " ++ str_int (Z.of_nat (length sm) - 50)
                          ++ py " more chunks.")]
         else []),
     inr tt).
Proof.
  unfold show_source_map. rewrite for_each_two_prints.
  destruct (50 <? length sm)%nat; cbn; by rewrite ?app_nil_r.
Qed.

Lemma answer_with_citations_closed pdf_paths query top_k chunk_size
    chunk_overlap model documents index retrieved :
  load_data pdf_paths = inr documents ->
  from_documents documents EMBED_MODEL = inr index ->
  retrieve index top_k query = inr retrieved ->
  answer_with_citations Documents Index load_data from_documents retrieve
    SentenceSplitter asynthesize float_str
    pdf_paths query top_k chunk_size chunk_overlap model
  = let pre := through_retrieval pdf_paths top_k query in
    match retrieved with
    | [] => (pre ++ [EvPrint NO_RESULTS_MESSAGE], inr tt)
    | _ :: _ =>
        match _split_and_number SentenceSplitter retrieved chunk_size chunk_overlap with
        | inl e => (pre, inl e)
        | inr (nn, sm) =>
            let cfg := synth_kwargs model in
            match asynthesize cfg query nn with
            | inl e =>
                (pre ++ [EvPrint (py "Generating answer...");
                         EvSynthesize cfg query nn], inl e)
            | inr resp =>
                (pre ++ [EvPrint (py "Generating answer...");
                         EvSynthesize cfg query nn;
                         EvPrint ([NL] ++ replicate 80 61%N);
                         EvPrint (py "FINAL ANSWER");
                         EvPrint (replicate 80 61%N);
                         EvPrint (final_text resp)]
                     ++ (show_source_map float_str sm).1,
                 inr tt)
            end
        end
    end.
Proof.
  intros H1 H2 H3. unfold answer_with_citations.
  rewrite H1. cbn [mbind Run_bind bind print call]. rewrite H2.
  cbn [mbind Run_bind bind print call]. rewrite H3.
  cbn [mbind Run_bind bind print call].
  destruct retrieved as [|p rest]; [done|].
  destruct (_split_and_number _ _ _ _) as [e|[nn sm]]; [done|].
  cbn [mbind Run_bind bind print call lift].
  destruct (asynthesize _ _ _) as [e|resp]; [done|].
  rewrite show_source_map_closed. done.
Qed.

End DriverFacts.

Lemma passage_chunks_nil split_text nodes :
  (forall p, p ∈ nodes -> split_text (get_content (node p)) = []) ->
  passage_chunks split_text nodes = [].
Proof.
  induction nodes as [|p nodes IH]; intros Hall; [done|].
  unfold passage_chunks. rewrite bind_cons.
  rewrite Hall by apply list_elem_of_here.
  apply IH. intros q Hq. apply Hall. by apply list_elem_of_further.
Qed.

(** ** Properties of the driver *)

Section DriverClaims.

Variables Documents Index : Type.
Variable load_data : list pystr -> PyExc + Documents.
Variable from_documents : Documents -> pystr -> PyExc + Index.
Variable retrieve : Index -> Z -> pystr -> PyExc + list NodeWithScore.
Variable SentenceSplitter : Z -> Z -> PyExc + (pystr -> list pystr).
Variable asynthesize :
  SynthConfig -> pystr -> list NodeWithScore -> PyExc + Response.
Variable float_str : float -> pystr.

(** C3, as the code has it. The program checks neither value itself. The
    number of passages asked for goes to the retriever as given, and the
    chunk size and overlap are first looked at by the constructor of the
    sentence splitter, after the retrieval call. When retrieval returns at
    least one passage and the splitter refuses the two values, the run ends
    with the error of the splitter: the retrieval call has been made, the
    synthesizer has not been called, and [main] prints the fatal error and
    exits with status 1. *)
Theorem C3_splitter_rejects_after_retrieval args key0 key documents index
    p rest e :
  load_data (pdf args) = inr documents ->
  from_documents documents EMBED_MODEL = inr index ->
  retrieve index (top_k args) (query args) = inr (p :: rest) ->
  SentenceSplitter (chunk_size args) (chunk_overlap args) = inl (Raised e) ->
  answer_with_citations Documents Index load_data from_documents retrieve
    SentenceSplitter asynthesize float_str
    (pdf args) (query args) (top_k args) (chunk_size args)
    (chunk_overlap args) (model args)
  = ([EvPrint (loading_line (pdf args)); EvLoad (pdf args);
      EvIndex EMBED_MODEL; EvRetrieve (top_k args) (query args)],
     inl (Raised e))
  /\ main Documents Index load_data from_documents retrieve
       SentenceSplitter asynthesize float_str (Some (key0 :: key)) args
     = ([EvPrint (loading_line (pdf args)); EvLoad (pdf args);
         EvIndex EMBED_MODEL; EvRetrieve (top_k args) (query args);
         EvPrint ([NL] ++ py "Fatal error: " ++ e)],
        1).
Proof.
  intros H1 H2 H3 H4.
  assert (Hrun := answer_with_citations_closed _ _ load_data from_documents
    retrieve SentenceSplitter asynthesize float_str _ _ _
    (chunk_size args) (chunk_overlap args) (model args) _ _ _ H1 H2 H3).
  cbv zeta in Hrun. unfold _split_and_number in Hrun. rewrite H4 in Hrun.
  split; [exact Hrun|].
  unfold main, main_entry. rewrite Hrun. done.
Qed.

(** C4. A query has no evidence when retrieval returns no passage, or when
    the splitter leaves every retrieved passage without a chunk. In both
    cases the run ends normally with a fixed answer that depends neither on
    the query nor on the passages, no call to the Completion Service is
    made, and the source map is empty: no unit and no entry is made and no
    entry line is printed. Without passages the fixed answer is the
    no-results message of the program, and the synthesizer is not called.
    With passages but no unit the program calls the synthesizer with no
    unit, which returns its fixed no-evidence answer without a completion
    call, for every query. *)
Theorem C4_no_evidence_answer complete sep no_evidence_answer
    pdf_paths query top_k chunk_size chunk_overlap model documents index
    retrieved :
  load_data pdf_paths = inr documents ->
  from_documents documents EMBED_MODEL = inr index ->
  retrieve index top_k query = inr retrieved ->
  retrieved = []
  \/ (exists split_text,
        SentenceSplitter chunk_size chunk_overlap = inr split_text
        /\ forall p, p ∈ retrieved -> split_text (get_content (node p)) = []) ->
  let r := answer_with_citations Documents Index load_data from_documents
             retrieve SentenceSplitter
             (asynthesize_spec complete sep no_evidence_answer) float_str
             pdf_paths query top_k chunk_size chunk_overlap model in
  r.2 = inr tt
  /\ completion_calls complete sep no_evidence_answer r.1 = []
  /\ (forall nn sm,
        _split_and_number SentenceSplitter retrieved chunk_size chunk_overlap
          = inr (nn, sm) -> nn = [] /\ sm = [])
  /\ (retrieved = [] ->
        printed r.1 = [loading_line pdf_paths; NO_RESULTS_MESSAGE]
        /\ existsb is_synthesize r.1 = false)
  /\ (retrieved <> [] ->
        printed r.1
        = [loading_line pdf_paths; py "Generating answer...";
           [NL] ++ replicate 80 61%N; py "FINAL ANSWER"; replicate 80 61%N;
           no_evidence_answer;
           [NL] ++ replicate 80 45%N;
           py "SOURCE MAP (match these to the [Source N] citations in the answer)";
           replicate 80 45%N])
  /\ (forall cfg query',
        synthesize complete sep no_evidence_answer cfg query' []
        = ([], inr (answer_response no_evidence_answer))).
Proof.
  intros H1 H2 H3 Hnone r.
  assert (Hrun := answer_with_citations_closed _ _ load_data from_documents
    retrieve SentenceSplitter (asynthesize_spec complete sep no_evidence_answer)
    float_str _ _ _ chunk_size chunk_overlap model _ _ _ H1 H2 H3).
  fold r in Hrun. cbv zeta in Hrun.
  assert (Hunits : forall nn sm,
            _split_and_number SentenceSplitter retrieved chunk_size chunk_overlap
              = inr (nn, sm) -> nn = [] /\ sm = []).
  { intros nn sm Hchunk. unfold _split_and_number in Hchunk.
    destruct (SentenceSplitter chunk_size chunk_overlap) as [e|split_text] eqn:Hs;
      [done|].
    injection Hchunk as <- <-.
    destruct (split_and_number_loop_closed split_text retrieved) as [-> ->].
    destruct Hnone as [->|(split_text' & Hs' & Hempty)]; [done|].
    rewrite ?Hs in Hs'. injection Hs' as <-.
    by rewrite (passage_chunks_nil _ _ Hempty). }
  assert (Hfinal : final_text (answer_response no_evidence_answer)
                   = no_evidence_answer).
  { unfold final_text, answer_response. cbn [response response_text response_str].
    by destruct no_evidence_answer. }
  destruct retrieved as [|p rest].
  - rewrite Hrun. cbn [fst snd].
    split; [done|]. split; [done|]. split; [exact Hunits|].
    split; [done|]. split; [intros Hne; by destruct Hne | done].
  - destruct Hnone as [|(split_text & Hs & Hempty)]; [done|].
    destruct (_split_and_number SentenceSplitter (p :: rest) chunk_size
                chunk_overlap) as [e|[nn sm]] eqn:Hchunk.
    { unfold _split_and_number in Hchunk. by rewrite Hs in Hchunk. }
    destruct (Hunits nn sm eq_refl) as [-> ->].
    unfold asynthesize_spec in Hrun. cbn [synthesize snd] in Hrun.
    rewrite Hrun. cbn [fst snd]. rewrite Hfinal.
    split; [done|]. split; [done|]. split; [exact Hunits|].
    split; [done|]. split; [done | done].
Qed.

End DriverClaims.

Lemma C3_splitter_rejects_after_retrieval_witness :
  Sample.SentenceSplitter 10 20
    = inl (Raised (py "ValueError('Got a larger chunk overlap than chunk size.')"))
  /\ Sample.run_main Sample.corpus (Some (py "sk-0")) (Sample.args 4 10 20)
     = ([EvPrint (py "Loading 1 PDF file(s)..."); EvLoad [py "a.pdf"];
         EvIndex EMBED_MODEL; EvRetrieve 4 (py "q");
         EvPrint ([NL] ++ py "Fatal error: "
                    ++ py "ValueError('Got a larger chunk overlap than chunk size.')")],
        1).
Proof.
  split; [reflexivity|].
  exact (proj2 (C3_splitter_rejects_after_retrieval _ _
    (Sample.load_data Sample.corpus) Sample.from_documents Sample.retrieve
    Sample.SentenceSplitter Sample.asynthesize Sample.float_str
    (Sample.args 4 10 20) 115%N (py "k-0") _ _ _ _ _
    eq_refl eq_refl eq_refl eq_refl)).
Defined.

(** C3 as stated fails. With topK = 0 the run is not rejected: the
    retrieval call is made and the run ends normally. With chunkOverlap = 20
    and chunkSize = 10 the run does fail, but only after the retrieval call
    has been made. *)
Lemma C3_counterexample :
  Sample.run Sample.corpus (py "q") 0 512 20
  = ([EvPrint (py "Loading 1 PDF file(s)..."); EvLoad [py "a.pdf"];
      EvIndex EMBED_MODEL; EvRetrieve 0 (py "q");
      EvPrint NO_RESULTS_MESSAGE],
     inr tt)
  /\ Sample.run Sample.corpus (py "q") 4 10 20
     = ([EvPrint (py "Loading 1 PDF file(s)..."); EvLoad [py "a.pdf"];
         EvIndex EMBED_MODEL; EvRetrieve 4 (py "q")],
        inl (Raised (py "ValueError('Got a larger chunk overlap than chunk size.')")))
  /\ existsb is_retrieve (Sample.run Sample.corpus (py "q") 0 512 20).1 = true
  /\ existsb is_retrieve (Sample.run Sample.corpus (py "q") 4 10 20).1 = true.
Proof. repeat split; vm_compute; reflexivity. Qed.

Lemma C4_no_evidence_answer_witness :
  let corpus := [Sample.passage " " ∅ None] in
  let complete := fun _ : pystr => inr (py "Yes [Source 1].") : PyExc + pystr in
  let r := answer_with_citations _ _ (Sample.load_data corpus)
             Sample.from_documents Sample.retrieve Sample.SentenceSplitter
             (asynthesize_spec complete [NL; NL] (py "Empty Response"))
             Sample.float_str
             [py "a.pdf"] (py "q") 4 512 20 (py "gpt-5-nano") in
  Sample.retrieve corpus 4 (py "q") = inr corpus
  /\ Sample.split_text 512 20 (py " ") = []
  /\ r.2 = inr tt
  /\ completion_calls complete [NL; NL] (py "Empty Response") r.1 = [].
Proof.
  intros corpus complete r.
  split; [reflexivity|]. split; [reflexivity|].
  assert (Hnone : corpus = []
            \/ (exists split_text,
                  Sample.SentenceSplitter 512 20 = inr split_text
                  /\ forall p, p ∈ corpus ->
                       split_text (get_content (node p)) = [])).
  { right. exists (Sample.split_text 512 20). split; [reflexivity|].
    intros p Hp. apply list_elem_of_singleton in Hp as ->. reflexivity. }
  destruct (C4_no_evidence_answer _ _ (Sample.load_data corpus)
    Sample.from_documents Sample.retrieve Sample.SentenceSplitter
    Sample.float_str complete [NL; NL] (py "Empty Response")
    [py "a.pdf"] (py "q") 4 512 20 (py "gpt-5-nano") _ _ corpus
    eq_refl eq_refl eq_refl Hnone) as (Hr & Hcalls & _).
  split; [exact Hr | exact Hcalls].
Defined.

(** X19. Whatever the configuration, a run whose documents load and index
    makes the retrieval call, with [top_k] and the query as given; no value
    of [top_k], chunk size or overlap prevents it. *)
Lemma retrieval_is_always_called Documents Index load_data from_documents
    retrieve SentenceSplitter asynthesize float_str
    pdf_paths query top_k chunk_size chunk_overlap model
    (documents : Documents) (index : Index) :
  load_data pdf_paths = inr documents ->
  from_documents documents EMBED_MODEL = inr index ->
  exists tr r,
    answer_with_citations Documents Index load_data from_documents retrieve
      SentenceSplitter asynthesize float_str
      pdf_paths query top_k chunk_size chunk_overlap model
    = (through_retrieval pdf_paths top_k query ++ tr, r).
Proof.
  intros H1 H2.
  destruct (retrieve index top_k query) as [e|retrieved] eqn:H3.
  - exists [], (inl e). unfold answer_with_citations.
    rewrite H1. cbn [mbind Run_bind bind print call]. rewrite H2.
    cbn [mbind Run_bind bind print call]. by rewrite H3.
  - rewrite (answer_with_citations_closed _ _ load_data from_documents retrieve
               SentenceSplitter asynthesize float_str _ _ _
               chunk_size chunk_overlap model _ _ _ H1 H2 H3).
    cbv zeta. destruct retrieved as [|p rest]; [by eexists _, _|].
    destruct (_split_and_number _ _ _ _) as [e|[nn sm]].
    + exists [], (inl e). by rewrite app_nil_r.
    + destruct (asynthesize _ _ _); by eexists _, _.
Qed.

(** X20. When every collaborator returns and at least one passage is
    retrieved, the run calls load, index, retrieve and synthesize once each
    in that order, prints "Generating answer..." before the synthesizer
    call, then the answer between its banners, and ends normally with the
    lines of [show_source_map]. *)
Lemma answer_with_citations_success Documents Index load_data from_documents
    retrieve SentenceSplitter asynthesize float_str
    pdf_paths query top_k chunk_size chunk_overlap model
    (documents : Documents) (index : Index) p rest nn sm resp :
  load_data pdf_paths = inr documents ->
  from_documents documents EMBED_MODEL = inr index ->
  retrieve index top_k query = inr (p :: rest) ->
  _split_and_number SentenceSplitter (p :: rest) chunk_size chunk_overlap
    = inr (nn, sm) ->
  asynthesize (synth_kwargs model) query nn = inr resp ->
  answer_with_citations Documents Index load_data from_documents retrieve
    SentenceSplitter asynthesize float_str
    pdf_paths query top_k chunk_size chunk_overlap model
  = (through_retrieval pdf_paths top_k query
       ++ [EvPrint (py "Generating answer...");
           EvSynthesize (synth_kwargs model) query nn;
           EvPrint ([NL] ++ replicate 80 61%N);
           EvPrint (py "FINAL ANSWER");
           EvPrint (replicate 80 61%N);
           EvPrint (final_text resp)]
       ++ (show_source_map float_str sm).1,
     inr tt).
Proof.
  intros H1 H2 H3 H4 H5.
  rewrite (answer_with_citations_closed _ _ load_data from_documents retrieve
             SentenceSplitter asynthesize float_str _ _ _
             chunk_size chunk_overlap model _ _ _ H1 H2 H3).
  cbv zeta. by rewrite H4, H5.
Qed.

(** The printer of the second script has no cap: it prints a heading and
    then two lines for every source node. *)
Lemma print_nodes_lines float_fmt3 i source_nodes :
  (CitationQueryEngine.print_nodes float_fmt3 i source_nodes).2 = inr tt
  /\ length (printed (CitationQueryEngine.print_nodes float_fmt3 i source_nodes).1)
     = (2 * length source_nodes)%nat.
Proof.
  revert i. induction source_nodes as [|sn rest IH]; intros i; [done|].
  cbn [CitationQueryEngine.print_nodes mbind Run_bind bind print].
  destruct (IH (i + 1)) as [Hr Hlen].
  destruct (CitationQueryEngine.print_nodes float_fmt3 (i + 1) rest) as [tr r].
  cbn [fst snd] in *. subst r. split; [done|].
  rewrite !(printed_app [_]), !length_app, Hlen. cbn [length]. simpl. lia.
Qed.

Lemma print_source_map_every_node float_fmt3 sn rest :
  let r := CitationQueryEngine.print_source_map float_fmt3 (Some (sn :: rest)) in
  r.2 = inr tt /\ length (printed r.1) = (1 + 2 * length (sn :: rest))%nat.
Proof.
  cbv zeta. unfold CitationQueryEngine.print_source_map.
  destruct (print_nodes_lines float_fmt3 1 (sn :: rest)) as [Hr Hlen].
  cbn [mbind Run_bind bind print].
  destruct (CitationQueryEngine.print_nodes float_fmt3 1 (sn :: rest)) as [tr r].
  cbn [fst snd] in *. subst r. split; [done|].
  rewrite (printed_app [_]), length_app, Hlen. simpl. lia.
Qed.

(** There an absent score, like an absent page, leaves its field out. *)
Example print_source_map_absent_score :
  printed (CitationQueryEngine.print_source_map Sample.float_str
             (Some [Sample.passage "xy" ∅ None])).1
  = [[NL] ++ py "=== SOURCE MAP ==="; py "[1] file=unknown_file";
     py "  " ++ [9492%N; 9472%N] ++ py " xy"].
Proof. vm_compute. reflexivity. Qed.

(** C8, as the code has it. A run that gets as far as the source map prints
    three heading lines and then, for each of the first 50 entries of the
    source map and in their order, the line
    "[Source <label>] file=<file> page=<page> score=<score>" followed by the
    indented line of its snippet. Entries after the 50th are not printed;
    one closing line gives their number instead. *)
Theorem C8_source_map_rendering float_str (sm : list SourceMapEntry) :
  let r := show_source_map float_str sm in
  let out := printed r.1 in
  r.2 = inr tt
  /\ length out
     = (3 + 2 * Nat.min 50 (length sm) + (if (50 <? length sm)%nat then 1 else 0))%nat
  /\ (forall (i : nat) e x, (i < 50)%nat -> sm !! i = Some e ->
        src_score e = Some x ->
        out !! (3 + 2 * i)%nat
        = Some (py "[Source " ++ str_int (src_N e) ++ py "] file="
                  ++ py_str (src_file_path e) ++ py " page="
                  ++ py_str (src_page e) ++ py " score=" ++ float_str x))
  /\ (forall (i : nat) e, (i < 50)%nat -> sm !! i = Some e ->
        out !! (3 + 2 * i + 1)%nat
        = Some (py "  " ++ [9492%N; 9472%N] ++ py " " ++ src_snippet e ++ py "..."))
  /\ ((50 < length sm)%nat ->
        out !! 103%nat
        = Some (py "...and " ++ str_int (Z.of_nat (length sm) - 50)
                  ++ py " more chunks.")).
Proof.
  intros r out. subst r out. rewrite show_source_map_closed.
  cbn [fst snd]. rewrite !printed_app, printed_two_prints.
  set (heading := printed _).
  assert (Hheading : length heading = 3%nat) by done.
  assert (Hbody : forall (i : nat), (i < length sm)%nat -> (i < 50)%nat ->
            (2 * i + 1 < length (s ← take 50 sm;
               [source_line float_str s; snippet_line s]))%nat).
  { intros i ??. rewrite length_pairs, length_take. lia. }
  split; [done|]. split; [|split; [|split]].
  - rewrite !length_app, length_pairs, length_take, Hheading.
    destruct (50 <? length sm)%nat; simpl; lia.
  - intros i e x Hi He Hx. apply lookup_lt_Some in He as Hlt.
    rewrite lookup_app_r by lia. rewrite Hheading.
    replace (3 + 2 * i - 3)%nat with (2 * i)%nat by lia.
    rewrite lookup_app_l by (specialize (Hbody i Hlt Hi); lia).
    rewrite (proj1 (lookup_pairs _ _ _ i)), lookup_take_lt, He by done.
    simpl. unfold source_line, score_str. by rewrite Hx.
  - intros i e Hi He. apply lookup_lt_Some in He as Hlt.
    rewrite lookup_app_r by lia. rewrite Hheading.
    replace (3 + 2 * i + 1 - 3)%nat with (2 * i + 1)%nat by lia.
    rewrite lookup_app_l by (specialize (Hbody i Hlt Hi); lia).
    rewrite (proj2 (lookup_pairs _ _ _ i)), lookup_take_lt, He by done.
    done.
  - intros Hlen.
    rewrite lookup_app_r by lia. rewrite Hheading.
    rewrite lookup_app_r by (rewrite length_pairs, length_take; lia).
    rewrite length_pairs, length_take.
    replace (103 - 3 - 2 * (50 `min` length sm))%nat with 0%nat by lia.
    apply Nat.ltb_lt in Hlen. rewrite Hlen. done.
Qed.

(** C8 as stated fails. A passage of 51 code points, cut into chunks of
    one code point, gives a source map of 51 entries; the run succeeds and
    prints the lines of the first 50 only. The line of entry 51 is not
    printed, and the output ends with the line that counts it. *)
Lemma C8_counterexample :
  let corpus := [Sample.long_passage] in
  let r := Sample.run corpus (py "q") 1 1 0 in
  exists nn sm e,
    _split_and_number Sample.SentenceSplitter corpus 1 0 = inr (nn, sm)
    /\ length sm = 51%nat
    /\ sm !! 50%nat = Some e
    /\ source_line Sample.float_str e
       = py "[Source 51] file=unknown page=? score=0.5"
    /\ r.2 = inr tt
    /\ (source_line Sample.float_str e ∉ printed r.1)
    /\ length (filter (fun l => take 8 l = py "[Source ") (printed r.1)) = 50%nat
    /\ last (printed r.1) = Some (py "...and 1 more chunks.").
Proof.
  cbv zeta. eexists _, _, _.
  split; [reflexivity|]. split; [vm_compute; reflexivity|].
  split; [vm_compute; reflexivity|]. split; [vm_compute; reflexivity|].
  split; [vm_compute; reflexivity|]. split; [|split].
  - apply (bool_decide_unpack _). vm_compute. exact I.
  - vm_compute. reflexivity.
  - vm_compute. reflexivity.
Qed.

(** ** The first-pass prompt *)

Lemma format_qa_template (context_str query_str : pystr) :
  format CITATION_QA_TEMPLATE
    [(py "context_str", context_str); (py "query_str", query_str)]
  = QA_BEFORE_CONTEXT ++ context_str ++ QA_BEFORE_QUERY ++ query_str
      ++ QA_AFTER_QUERY.
Proof. vm_compute. reflexivity. Qed.

(** C9. For every query, the first-pass prompt made from the units of the
    chunker is the text of the template before its sources, then one block
    per unit, in the order of the units and joined by the separator, then
    the question part with the query, then the rules. The block of the i-th
    unit is "Source <label>:", a newline and the raw chunk, where the label
    is the one stored in that unit, namely i. There are as many blocks as
    units, so the render embeds no label but those of its units. *)
Theorem C9_render_initial_embeds_units SentenceSplitter nodes chunk_size
    chunk_overlap split_text nn sm (sep query : pystr) :
  SentenceSplitter chunk_size chunk_overlap = inr split_text ->
  _split_and_number SentenceSplitter nodes chunk_size chunk_overlap = inr (nn, sm) ->
  exists blocks : list pystr,
    renderInitial sep query nn
    = QA_BEFORE_CONTEXT ++ join sep blocks ++ QA_BEFORE_QUERY ++ query
        ++ QA_AFTER_QUERY
    /\ length blocks = length nn
    /\ forall (i : nat) u, nn !! i = Some u ->
         exists parent chunk,
           passage_chunks split_text nodes !! i = Some (parent, chunk)
           /\ metadata (node u) !! "source_index" = Some (VInt (Z.of_nat i + 1))
           /\ blocks !! i
              = Some (py "Source " ++ str_int (Z.of_nat i + 1) ++ py ":" ++ [NL]
                        ++ chunk).
Proof.
  intros Hsplit Hrun. chunker_closed Hsplit Hrun.
  set (pcs := passage_chunks split_text nodes).
  exists ((fun u => get_content (node u)) <$> numbered_from unit_of 1 pcs).
  split; [apply format_qa_template|]. split; [apply length_fmap|].
  intros i u Hu.
  rewrite list_lookup_fmap, Hu.
  apply lookup_numbered_from_Some in Hu as ([parent chunk] & Hpc & ->).
  exists parent, chunk. split; [done|].
  cbn [unit_of node metadata text get_content snd fmap option_fmap option_map].
  rewrite lookup_insert_eq, (Z.add_comm 1). done.
Qed.

Lemma C9_render_initial_embeds_units_witness :
  exists nn sm,
    Sample.SentenceSplitter 3 1 = inr (Sample.split_text 3 1)
    /\ _split_and_number Sample.SentenceSplitter Sample.corpus 3 1 = inr (nn, sm)
    /\ exists blocks,
         renderInitial [NL; NL] (py "q") nn
         = QA_BEFORE_CONTEXT ++ join [NL; NL] blocks ++ QA_BEFORE_QUERY ++ py "q"
             ++ QA_AFTER_QUERY
         /\ length blocks = length nn.
Proof.
  eexists _, _. split; [reflexivity|]. split; [reflexivity|].
  destruct (C9_render_initial_embeds_units Sample.SentenceSplitter Sample.corpus
              3 1 _ _ _ [NL; NL] (py "q") eq_refl eq_refl)
    as (blocks & Hprompt & Hlen & _).
  exists blocks. split; [exact Hprompt | exact Hlen].
Defined.

(** * Further properties of the chunker *)

Lemma passage_chunks_app split_text nodes1 nodes2 :
  passage_chunks split_text (nodes1 ++ nodes2)
  = passage_chunks split_text nodes1 ++ passage_chunks split_text nodes2.
Proof. apply bind_app. Qed.

Lemma entry_of_shift a k pcs :
  numbered_from entry_of (a + k) pcs
  = (fun e => {| src_N := src_N e + k; src_file_path := src_file_path e;
                 src_page := src_page e; src_score := src_score e;
                 src_snippet := src_snippet e |})
      <$> numbered_from entry_of a pcs.
Proof.
  revert a. induction pcs as [|pc pcs IH]; intros a; [done|].
  cbn [numbered_from]. rewrite fmap_cons. f_equal.
  replace (a + k + 1) with (a + 1 + k) by lia. apply IH.
Qed.

(** X1. The counter runs on from one passage to the next: chunking the
    passages [nodes1 ++ nodes2] gives the units and entries of [nodes1]
    unchanged, followed by those of [nodes2] with every label raised by the
    number of chunks of [nodes1]. For an entry the label is its number; for
    a unit it is the number in the prefix of its text and the value of
    source_index in its metadata, while its chunk, its other metadata and
    its score stay the same. *)
Theorem X1_chunker_app SentenceSplitter nodes1 nodes2 chunk_size chunk_overlap
    split_text nn1 sm1 nn2 sm2 nn sm :
  SentenceSplitter chunk_size chunk_overlap = inr split_text ->
  _split_and_number SentenceSplitter nodes1 chunk_size chunk_overlap = inr (nn1, sm1) ->
  _split_and_number SentenceSplitter nodes2 chunk_size chunk_overlap = inr (nn2, sm2) ->
  _split_and_number SentenceSplitter (nodes1 ++ nodes2) chunk_size chunk_overlap
    = inr (nn, sm) ->
  sm = sm1 ++ ((fun e => {| src_N := src_N e + Z.of_nat (length sm1);
                            src_file_path := src_file_path e;
                            src_page := src_page e;
                            src_score := src_score e;
                            src_snippet := src_snippet e |}) <$> sm2)
  /\ take (length nn1) nn = nn1
  /\ length nn = (length nn1 + length nn2)%nat
  /\ (forall (i : nat) u2, nn2 !! i = Some u2 ->
        exists u chunk,
          nn !! (length nn1 + i)%nat = Some u
          /\ text (node u2) = labeled_text (Z.of_nat i + 1) chunk
          /\ text (node u)
             = labeled_text (Z.of_nat i + 1 + Z.of_nat (length nn1)) chunk
          /\ metadata (node u)
             = <["source_index" := VInt (Z.of_nat i + 1 + Z.of_nat (length nn1))]>
                 (metadata (node u2))
          /\ score u = score u2).
Proof.
  intros Hsplit H1 H2 H12.
  destruct (split_and_number_closed _ _ _ _ _ _ _ Hsplit H1) as [-> ->].
  destruct (split_and_number_closed _ _ _ _ _ _ _ Hsplit H2) as [-> ->].
  destruct (split_and_number_closed _ _ _ _ _ _ _ Hsplit H12) as [-> ->].
  rewrite passage_chunks_app, !numbered_from_app, !length_numbered_from.
  split; [|split; [|split]].
  - f_equal. apply entry_of_shift.
  - rewrite take_app_length'; [done|]. by rewrite length_numbered_from.
  - by rewrite length_app, !length_numbered_from.
  - intros i u2 Hu2.
    apply lookup_numbered_from_Some in Hu2 as (pc & Hpc & ->).
    exists (unit_of (1 + Z.of_nat (length (passage_chunks split_text nodes1))
                     + Z.of_nat i) pc), pc.2.
    split.
    { rewrite lookup_app_r by (rewrite length_numbered_from; lia).
      rewrite length_numbered_from.
      replace (length (passage_chunks split_text nodes1) + i
               - length (passage_chunks split_text nodes1))%nat with i by lia.
      by apply lookup_unit_of. }
    cbn [unit_of node text metadata score].
    replace (Z.of_nat i + 1) with (1 + Z.of_nat i) by lia.
    replace (1 + Z.of_nat i + Z.of_nat (length (passage_chunks split_text nodes1)))
      with (1 + Z.of_nat (length (passage_chunks split_text nodes1)) + Z.of_nat i)
      by lia.
    by rewrite insert_insert_eq.
Qed.

Lemma X1_chunker_app_witness :
  exists nn1 sm1 nn2 sm2 nn sm,
    _split_and_number Sample.SentenceSplitter
      [Sample.passage "abcdefg" ∅ None] 3 1 = inr (nn1, sm1)
    /\ _split_and_number Sample.SentenceSplitter
         [Sample.passage "xy" ∅ None] 3 1 = inr (nn2, sm2)
    /\ _split_and_number Sample.SentenceSplitter
         ([Sample.passage "abcdefg" ∅ None] ++ [Sample.passage "xy" ∅ None]) 3 1
       = inr (nn, sm)
    /\ length sm1 = 3%nat
    /\ length nn = (length nn1 + length nn2)%nat.
Proof.
  eexists _, _, _, _, _, _.
  split; [reflexivity|]. split; [reflexivity|]. split; [reflexivity|].
  split; [reflexivity|].
  exact (proj1 (proj2 (proj2 (X1_chunker_app Sample.SentenceSplitter
    [Sample.passage "abcdefg" ∅ None] [Sample.passage "xy" ∅ None] 3 1
    _ _ _ _ _ _ _ eq_refl eq_refl eq_refl eq_refl)))).
Defined.

(** X2. A passage for which the splitter returns no chunk uses up no
    label: the result is the same as without that passage. *)
Theorem X2_chunkless_passage_skipped SentenceSplitter before p after
    chunk_size chunk_overlap :
  (forall split_text, SentenceSplitter chunk_size chunk_overlap = inr split_text ->
     split_text (get_content (node p)) = []) ->
  _split_and_number SentenceSplitter (before ++ p :: after) chunk_size chunk_overlap
  = _split_and_number SentenceSplitter (before ++ after) chunk_size chunk_overlap.
Proof.
  intros Hempty. unfold _split_and_number.
  destruct (SentenceSplitter chunk_size chunk_overlap) as [e|split_text]; [done|].
  specialize (Hempty split_text eq_refl).
  destruct (split_and_number_loop_closed split_text (before ++ p :: after)) as [-> ->].
  destruct (split_and_number_loop_closed split_text (before ++ after)) as [-> ->].
  rewrite !passage_chunks_app.
  change (p :: after) with ([p] ++ after).
  rewrite passage_chunks_app.
  assert (passage_chunks split_text [p] = []) as ->; [|done].
  apply passage_chunks_nil. by intros q ->%list_elem_of_singleton.
Qed.

Lemma X2_chunkless_passage_skipped_witness :
  _split_and_number Sample.SentenceSplitter
    ([Sample.passage "abcdefg" ∅ None] ++ Sample.passage "  " ∅ None
       :: [Sample.passage "xy" ∅ None]) 3 1
  = _split_and_number Sample.SentenceSplitter
      ([Sample.passage "abcdefg" ∅ None] ++ [Sample.passage "xy" ∅ None]) 3 1.
Proof.
  apply (X2_chunkless_passage_skipped Sample.SentenceSplitter).
  intros split_text [= <-]. reflexivity.
Defined.

(** X3. The metadata of every unit has exactly the three keys source_index,
    file_path and page; whatever else the metadata of the passage holds is
    not carried over. *)
Theorem X3_unit_metadata_keys SentenceSplitter nodes chunk_size chunk_overlap
    split_text nn sm :
  SentenceSplitter chunk_size chunk_overlap = inr split_text ->
  _split_and_number SentenceSplitter nodes chunk_size chunk_overlap = inr (nn, sm) ->
  forall u, u ∈ nn ->
    dom (metadata (node u)) = ({["source_index"; "file_path"; "page"]} : gset string).
Proof.
  intros Hsplit Hrun u Hu. chunker_closed Hsplit Hrun.
  apply list_elem_of_lookup_1 in Hu as [i Hu].
  apply lookup_numbered_from_Some in Hu as (pc & _ & ->).
  cbn [unit_of node metadata]. rewrite !dom_insert_L, dom_empty_L. set_solver.
Qed.

Lemma X3_unit_metadata_keys_witness :
  exists nn sm u,
    _split_and_number Sample.SentenceSplitter Sample.corpus 3 1 = inr (nn, sm)
    /\ nn !! 0%nat = Some u
    /\ dom (metadata (node u)) = ({["source_index"; "file_path"; "page"]} : gset string).
Proof.
  eexists _, _, _. split; [reflexivity|]. split; [reflexivity|].
  apply (X3_unit_metadata_keys Sample.SentenceSplitter Sample.corpus 3 1
           _ _ _ eq_refl eq_refl).
  apply list_elem_of_here.
Defined.

Lemma truthy_py_or_r a b : truthy b = true -> truthy (a |or| b) = true.
Proof. unfold py_or. intros Hb. by destruct (truthy a) eqn:Ha. Qed.

(** X4. The file and the page of a source map entry are never [None], an
    empty text or zero: when the metadata gives nothing usable the sentinel
    stands in. *)
Theorem X4_provenance_never_empty SentenceSplitter nodes chunk_size
    chunk_overlap split_text nn sm :
  SentenceSplitter chunk_size chunk_overlap = inr split_text ->
  _split_and_number SentenceSplitter nodes chunk_size chunk_overlap = inr (nn, sm) ->
  forall e, e ∈ sm ->
    truthy (src_file_path e) = true /\ truthy (src_page e) = true
    /\ src_file_path e <> VNone /\ src_page e <> VNone
    /\ src_file_path e <> VStr [] /\ src_page e <> VStr [].
Proof.
  intros Hsplit Hrun e He. chunker_closed Hsplit Hrun.
  apply list_elem_of_lookup_1 in He as [i He].
  apply lookup_numbered_from_Some in He as (pc & _ & ->).
  cbn [entry_of src_file_path src_page].
  assert (Hf : truthy (file_path_of (metadata (node pc.1))) = true)
    by by apply truthy_py_or_r.
  assert (Hp : truthy (page_of (metadata (node pc.1))) = true)
    by by apply truthy_py_or_r.
  repeat split; try done; intros Heq; rewrite Heq in *; discriminate.
Qed.

Lemma X4_provenance_never_empty_witness :
  exists nn sm e,
    _split_and_number Sample.SentenceSplitter Sample.corpus 3 1 = inr (nn, sm)
    /\ sm !! 3%nat = Some e
    /\ truthy (src_file_path e) = true.
Proof.
  eexists _, _, _. split; [reflexivity|]. split; [reflexivity|].
  refine (proj1 (X4_provenance_never_empty Sample.SentenceSplitter Sample.corpus
                   3 1 _ _ _ eq_refl eq_refl _ _)).
  apply (list_elem_of_lookup_2 _ 3%nat). reflexivity.
Defined.

(** X5. The file of an entry is the first usable value among the keys
    file_path, filename and source of the metadata of its passage, and its
    page the first usable value among page_label, page_number and page. A key
    that is absent counts as unusable, and so does one that holds [None], an
    empty text or the number 0; when no key is usable the file is "unknown"
    and the page is "?". *)
Theorem X5_provenance_lookup_order SentenceSplitter nodes chunk_size
    chunk_overlap split_text nn sm :
  SentenceSplitter chunk_size chunk_overlap = inr split_text ->
  _split_and_number SentenceSplitter nodes chunk_size chunk_overlap = inr (nn, sm) ->
  forall (i : nat) parent chunk e,
    passage_chunks split_text nodes !! i = Some (parent, chunk) ->
    sm !! i = Some e ->
    let get := dict_get (metadata (node parent)) in
    src_file_path e
    = (if truthy (get "file_path") then get "file_path"
       else if truthy (get "filename") then get "filename"
       else if truthy (get "source") then get "source"
       else VStr (py "unknown"))
    /\ src_page e
       = (if truthy (get "page_label") then get "page_label"
          else if truthy (get "page_number") then get "page_number"
          else if truthy (get "page") then get "page"
          else VStr (py "?")).
Proof.
  intros Hsplit Hrun i parent chunk e Hpc He get. chunker_closed Hsplit Hrun.
  rewrite (lookup_entry_of _ _ _ _ Hpc) in He. injection He as <-.
  cbn [entry_of src_file_path src_page fst]. unfold file_path_of, page_of.
  fold get. unfold py_or. split.
  - destruct (truthy (get "file_path")) eqn:H1; rewrite ?H1; [done|].
    destruct (truthy (get "filename")) eqn:H2; rewrite ?H2; [done|].
    by destruct (truthy (get "source")) eqn:H3; rewrite ?H3.
  - destruct (truthy (get "page_label")) eqn:H1; rewrite ?H1; [done|].
    destruct (truthy (get "page_number")) eqn:H2; rewrite ?H2; [done|].
    by destruct (truthy (get "page")) eqn:H3; rewrite ?H3.
Qed.

Lemma X5_provenance_lookup_order_witness :
  let nodes := [Sample.passage "abc"
                  {[ "filename" := VStr (py "b.pdf"); "page_label" := VStr [];
                     "page_number" := VInt 0 ]} None] in
  exists nn sm e,
    _split_and_number Sample.SentenceSplitter nodes 3 1 = inr (nn, sm)
    /\ sm !! 0%nat = Some e
    /\ src_file_path e = VStr (py "b.pdf")
    /\ src_page e = VStr (py "?").
Proof.
  intros nodes. eexists _, _, _. split; [reflexivity|]. split; [reflexivity|].
  exact (X5_provenance_lookup_order Sample.SentenceSplitter nodes 3 1 _ _ _
           eq_refl eq_refl 0%nat _ _ _ eq_refl eq_refl).
Defined.

From Stdlib Require DecimalZ.

Lemma digits_sep_inj d d' (r r' : pystr) :
  digits d ++ 58%N :: r = digits d' ++ 58%N :: r' -> d = d' /\ r = r'.
Proof.
  revert d'. induction d as [|d IH|d IH|d IH|d IH|d IH|d IH|d IH|d IH|d IH|d IH];
    intros [|d'|d'|d'|d'|d'|d'|d'|d'|d'|d'] H; simpl in H;
    try discriminate H;
    try (injection H as H; apply IH in H as [-> ->]; done).
  by injection H as ->.
Qed.

Lemma str_int_sep_inj k k' (r r' : pystr) :
  str_int k ++ 58%N :: r = str_int k' ++ 58%N :: r' -> k = k' /\ r = r'.
Proof.
  unfold str_int. intros H.
  assert (Z.to_int k = Z.to_int k' /\ r = r') as [Hk Hr].
  { destruct (Z.to_int k) as [d|d], (Z.to_int k') as [d'|d']; simpl in H.
    - by apply digits_sep_inj in H as [-> ->].
    - destruct d; discriminate H.
    - destruct d'; discriminate H.
    - injection H as H. by apply digits_sep_inj in H as [-> ->]. }
  split; [|done].
  by rewrite <- (DecimalZ.of_to k), <- (DecimalZ.of_to k'), Hk.
Qed.

Lemma labeled_text_inj k k' chunk chunk' :
  labeled_text k chunk = labeled_text k' chunk' -> k = k' /\ chunk = chunk'.
Proof.
  unfold labeled_text. intros H. apply app_inv_head in H.
  change (py ":" ++ [NL] ++ chunk) with (58%N :: NL :: chunk) in H.
  change (py ":" ++ [NL] ++ chunk') with (58%N :: NL :: chunk') in H.
  apply str_int_sep_inj in H as [-> H]. by injection H as ->.
Qed.

(** X6. The text of a unit determines its label and its raw chunk: two
    labelled texts are equal only for the same label and the same chunk. So
    no two units of one result have the same text, and the raw chunk of a
    unit is what follows the prefix of its label. *)
Theorem X6_unit_text_determines_unit SentenceSplitter nodes chunk_size
    chunk_overlap split_text nn sm :
  SentenceSplitter chunk_size chunk_overlap = inr split_text ->
  _split_and_number SentenceSplitter nodes chunk_size chunk_overlap = inr (nn, sm) ->
  (forall (i j : nat) u u', nn !! i = Some u -> nn !! j = Some u' ->
     text (node u) = text (node u') -> i = j)
  /\ (forall (i : nat) u parent chunk, nn !! i = Some u ->
        passage_chunks split_text nodes !! i = Some (parent, chunk) ->
        forall k c, text (node u) = labeled_text k c ->
          k = Z.of_nat i + 1 /\ c = chunk).
Proof.
  intros Hsplit Hrun. chunker_closed Hsplit Hrun. split.
  - intros i j u u' Hu Hu' Heq.
    apply lookup_numbered_from_Some in Hu as (pc & _ & ->).
    apply lookup_numbered_from_Some in Hu' as (pc' & _ & ->).
    cbn [unit_of node text] in Heq. apply labeled_text_inj in Heq as [Hk _]. lia.
  - intros i u parent chunk Hu Hpc k c Heq.
    rewrite (lookup_unit_of _ _ _ _ Hpc) in Hu. injection Hu as <-.
    cbn [unit_of node text snd] in Heq.
    apply labeled_text_inj in Heq as [<- <-]. split; [lia|done].
Qed.

Lemma X6_unit_text_determines_unit_witness :
  exists nn sm,
    _split_and_number Sample.SentenceSplitter Sample.corpus 3 1 = inr (nn, sm)
    /\ forall (i j : nat) u u', nn !! i = Some u -> nn !! j = Some u' ->
         text (node u) = text (node u') -> i = j.
Proof.
  eexists _, _. split; [reflexivity|].
  exact (proj1 (X6_unit_text_determines_unit Sample.SentenceSplitter Sample.corpus
                  3 1 _ _ _ eq_refl eq_refl)).
Defined.

Lemma replace_nl_id s : NL ∉ s -> replace_nl s = s.
Proof.
  induction s as [|c s IH]; intros Hnl; [done|].
  unfold replace_nl. rewrite fmap_cons. fold (replace_nl s).
  rewrite IH by (intros ?; apply Hnl; by apply list_elem_of_further).
  destruct (N.eqb_spec c NL) as [->|]; [|done].
  exfalso. apply Hnl. apply list_elem_of_here.
Qed.

(** X7. A chunk of at most 240 code points without a newline is its own
    snippet: the preview shows it whole and unchanged. *)
Theorem X7_short_chunk_snippet SentenceSplitter nodes chunk_size chunk_overlap
    split_text nn sm :
  SentenceSplitter chunk_size chunk_overlap = inr split_text ->
  _split_and_number SentenceSplitter nodes chunk_size chunk_overlap = inr (nn, sm) ->
  forall (i : nat) parent chunk e,
    passage_chunks split_text nodes !! i = Some (parent, chunk) ->
    sm !! i = Some e ->
    (length chunk <= 240)%nat -> 10%N ∉ chunk ->
    src_snippet e = chunk.
Proof.
  intros Hsplit Hrun i parent chunk e Hpc He Hlen Hnl.
  chunker_closed Hsplit Hrun.
  rewrite (lookup_entry_of _ _ _ _ Hpc) in He. injection He as <-.
  cbn [entry_of src_snippet snd].
  rewrite take_ge by done. by apply replace_nl_id.
Qed.

Lemma X7_short_chunk_snippet_witness :
  exists nn sm e,
    _split_and_number Sample.SentenceSplitter Sample.corpus 3 1 = inr (nn, sm)
    /\ sm !! 0%nat = Some e
    /\ src_snippet e = py "abc".
Proof.
  eexists _, _, _. split; [reflexivity|]. split; [reflexivity|].
  refine (X7_short_chunk_snippet Sample.SentenceSplitter Sample.corpus 3 1 _ _ _
            eq_refl eq_refl 0%nat (List.hd Sample.long_passage Sample.corpus)
            (py "abc") _ eq_refl eq_refl _ _).
  - vm_compute. lia.
  - apply (bool_decide_unpack _). vm_compute. exact I.
Defined.

(** * Further properties of the driver *)

(** [bool(os.environ.get("OPENAI_API_KEY"))]: the variable is set and not
    empty. *)
Definition key_is_set (key : option pystr) : bool :=
  match key with
  | Some (_ :: _) => true
  | _ => false
  end.

(** The calls a run makes to its collaborators, without the printed lines. *)
Definition is_print (ev : Event) : bool :=
  match ev with EvPrint _ => true | _ => false end.

Definition calls (tr : list Event) : list Event :=
  List.filter (fun ev => negb (is_print ev)) tr.

Lemma calls_app tr1 tr2 : calls (tr1 ++ tr2) = calls tr1 ++ calls tr2.
Proof. apply List.filter_app. Qed.

Lemma calls_two_prints {A} (l : list A) (f g : A -> pystr) :
  calls (x ← l; [EvPrint (f x); EvPrint (g x)]) = [].
Proof.
  induction l as [|x l IH]; [done|]. by rewrite bind_cons, calls_app, IH.
Qed.

Lemma calls_show_source_map float_str sm :
  calls (show_source_map float_str sm).1 = [].
Proof.
  rewrite show_source_map_closed. cbn [fst].
  rewrite !calls_app, calls_two_prints. by destruct (50 <? length sm)%nat.
Qed.

Section DriverExtras.

Variables Documents Index : Type.
Variable load_data : list pystr -> PyExc + Documents.
Variable from_documents : Documents -> pystr -> PyExc + Index.
Variable retrieve : Index -> Z -> pystr -> PyExc + list NodeWithScore.
Variable SentenceSplitter : Z -> Z -> PyExc + (pystr -> list pystr).
Variable asynthesize :
  SynthConfig -> pystr -> list NodeWithScore -> PyExc + Response.
Variable float_str : float -> pystr.

Local Abbreviation run := (answer_with_citations Documents Index load_data
  from_documents retrieve SentenceSplitter asynthesize float_str).

Local Ltac step := cbn [mbind Run_bind bind print call lift].

(** X8. A run that ends with an exception prints no answer and no source
    map: its output is the loading line alone, or the loading line and
    "Generating answer..." when it is the synthesizer that failed. *)
Theorem X8_failed_run_prints_no_answer pdf_paths query top_k chunk_size
    chunk_overlap model tr e :
  run pdf_paths query top_k chunk_size chunk_overlap model = (tr, inl e) ->
  printed tr = [loading_line pdf_paths]
  \/ (printed tr = [loading_line pdf_paths; py "Generating answer..."]
      /\ exists nn, asynthesize (synth_kwargs model) query nn = inl e).
Proof.
  unfold answer_with_citations.
  destruct (load_data pdf_paths) as [e1|documents]; step.
  { intros [= <- <-]. by left. }
  destruct (from_documents documents EMBED_MODEL) as [e2|index]; step.
  { intros [= <- <-]. by left. }
  destruct (retrieve index top_k query) as [e3|[|p rest]]; step.
  { intros [= <- <-]. by left. }
  { intros [= _ ?]. }
  destruct (_split_and_number _ _ _ _) as [e4|[nn sm]]; step.
  { intros [= <- <-]. by left. }
  destruct (asynthesize _ _ nn) as [e5|resp] eqn:Hsyn; step.
  { intros [= <- <-]. right. split; [done|]. by exists nn. }
  rewrite show_source_map_closed. intros [= _ ?].
Qed.

(** X9. In every run the collaborators are called at most once each and in
    the order load, index, retrieve, synthesize, with the paths, the
    embedding model, the number of passages, the query and the synthesizer
    settings of the run: the calls of a run are a prefix of that list. *)
Theorem X9_calls_in_order pdf_paths query top_k chunk_size chunk_overlap model :
  exists nn,
    calls (run pdf_paths query top_k chunk_size chunk_overlap model).1
    `prefix_of` [EvLoad pdf_paths; EvIndex EMBED_MODEL; EvRetrieve top_k query;
                 EvSynthesize (synth_kwargs model) query nn].
Proof.
  unfold answer_with_citations.
  destruct (load_data pdf_paths) as [e1|documents]; step.
  { exists []. by eexists [_; _; _]. }
  destruct (from_documents documents EMBED_MODEL) as [e2|index]; step.
  { exists []. by eexists [_; _]. }
  destruct (retrieve index top_k query) as [e3|[|p rest]]; step.
  { exists []. by eexists [_]. }
  { exists []. by eexists [_]. }
  destruct (_split_and_number _ _ _ _) as [e4|[nn sm]]; step.
  { exists []. by eexists [_]. }
  exists nn. destruct (asynthesize _ _ nn) as [e5|resp]; step.
  { by exists []. }
  destruct (show_source_map float_str sm) as [tr r] eqn:Hshow.
  assert (Hcalls := calls_show_source_map float_str sm).
  rewrite Hshow in Hcalls. cbn [fst] in *. exists [].
  cbn [app]. unfold calls in *. cbn [List.filter is_print negb].
  by rewrite Hcalls.
Qed.

(** X10. When the synthesizer is called, it is called with the query of
    the run, the two citation templates in compact mode, and exactly the
    units that [_split_and_number] made from the passages the retriever
    returned. *)
Theorem X10_synthesizer_gets_the_units pdf_paths query top_k chunk_size
    chunk_overlap model documents index retrieved cfg q nodes :
  load_data pdf_paths = inr documents ->
  from_documents documents EMBED_MODEL = inr index ->
  retrieve index top_k query = inr retrieved ->
  EvSynthesize cfg q nodes
    ∈ (run pdf_paths query top_k chunk_size chunk_overlap model).1 ->
  q = query
  /\ text_qa_template cfg = CITATION_QA_TEMPLATE
  /\ refine_template cfg = CITATION_REFINE_TEMPLATE
  /\ response_mode cfg = py "compact"
  /\ llm cfg = model
  /\ retrieved <> []
  /\ exists sm,
       _split_and_number SentenceSplitter retrieved chunk_size chunk_overlap
       = inr (nodes, sm).
Proof.
  intros H1 H2 H3.
  rewrite (answer_with_citations_closed _ _ load_data from_documents retrieve
             SentenceSplitter asynthesize float_str _ _ _
             chunk_size chunk_overlap model _ _ _ H1 H2 H3).
  cbv zeta. unfold through_retrieval.
  assert (Hpre : forall tr, EvSynthesize cfg q nodes
            ∈ [EvPrint (loading_line pdf_paths); EvLoad pdf_paths;
               EvIndex EMBED_MODEL; EvRetrieve top_k query] ++ tr ->
            EvSynthesize cfg q nodes ∈ tr).
  { intros tr [Hin|Hin]%elem_of_app; [|done].
    repeat (apply elem_of_cons in Hin as [Hin|Hin]; [discriminate|]).
    by apply elem_of_nil in Hin. }
  destruct retrieved as [|p rest].
  { intros Hin%Hpre. apply list_elem_of_singleton in Hin. discriminate. }
  destruct (_split_and_number _ _ _ _) as [e4|[nn sm]].
  { cbn [fst]. rewrite <- (app_nil_r [_; _; _; _]).
    intros Hin%Hpre. by apply elem_of_nil in Hin. }
  assert (Hgot : EvSynthesize cfg q nodes = EvSynthesize (synth_kwargs model) query nn ->
            q = query /\ text_qa_template cfg = CITATION_QA_TEMPLATE
            /\ refine_template cfg = CITATION_REFINE_TEMPLATE
            /\ response_mode cfg = py "compact" /\ llm cfg = model
            /\ p :: rest <> []
            /\ exists sm0, inr (nn, sm) = inr (nodes, sm0) :> PyExc + _).
  { intros [= -> -> ->]. repeat split; try done. by exists sm. }
  destruct (asynthesize _ _ nn) as [e5|resp]; cbn [fst]; intros Hin%Hpre.
  - apply elem_of_cons in Hin as [Hin|Hin]; [discriminate|].
    apply list_elem_of_singleton in Hin. by apply Hgot.
  - apply elem_of_app in Hin as [Hin|Hin].
    + apply elem_of_cons in Hin as [Hin|Hin]; [discriminate|].
      apply elem_of_cons in Hin as [Hin|Hin]; [by apply Hgot|].
      repeat (apply elem_of_cons in Hin as [Hin|Hin]; [discriminate|]).
      by apply elem_of_nil in Hin.
    + exfalso. assert (Hc := calls_show_source_map float_str sm).
      apply list_elem_of_In in Hin.
      assert (Hf : In (EvSynthesize cfg q nodes)
                     (calls (show_source_map float_str sm).1)).
      { apply List.filter_In. by split. }
      by rewrite Hc in Hf.
Qed.

(** X11. [main] tests the API key first: without a key it exits with
    status 1 and calls no collaborator. With a key, when [parse_args] ends
    the program the status is the one [parse_args] chose and nothing else
    happens. Otherwise the events of [main] are those of the run, and the
    status is 0 exactly when the run returns or is interrupted: after
    [KeyboardInterrupt] the line "Interrupted." is added, after any other
    exception the line "Fatal error:" with its [repr] and the status is 1. *)
Theorem X11_main_exit_status key parse_args :
  let out := main_entry Documents Index load_data from_documents retrieve
               SentenceSplitter asynthesize float_str key parse_args in
  (key_is_set key = false -> out.2 = 1 /\ calls out.1 = [])
  /\ (key_is_set key = true ->
        forall status, parse_args = inl status -> out = ([], status))
  /\ (key_is_set key = true ->
        forall args, parse_args = inr args ->
          let r := run (pdf args) (query args) (top_k args) (chunk_size args)
                     (chunk_overlap args) (model args) in
          calls out.1 = calls r.1
          /\ (out.2 = 0 \/ out.2 = 1)
          /\ (out.2 = 0 <-> r.2 = inr tt \/ r.2 = inl KeyboardInterrupt)
          /\ out.1
             = r.1 ++ match r.2 with
                      | inr _ => []
                      | inl KeyboardInterrupt =>
                          [EvPrint ([NL] ++ py "Interrupted.")]
                      | inl (Raised repr) =>
                          [EvPrint ([NL] ++ py "Fatal error: " ++ repr)]
                      end).
Proof.
  cbv zeta. unfold main_entry.
  destruct key as [[|k key]|]; cbn [key_is_set].
  - split; [done|]. split; done.
  - split; [done|]. split; [by intros _ status ->|].
    intros _ args ->.
    destruct (run _ _ _ _ _ _) as [tr [[repr|]|[]]]; cbn [fst snd].
    + split; [rewrite calls_app; cbn; by rewrite app_nil_r|].
      split; [by right|]. split; [|done].
      split; [done|by intros [|]].
    + split; [rewrite calls_app; cbn; by rewrite app_nil_r|].
      split; [by left|]. split; [|done]. split; [by right|done].
    + split; [done|]. split; [by left|]. split; [|by rewrite app_nil_r].
      split; [by left|done].
  - split; [done|]. split; done.
Qed.

End DriverExtras.

Lemma X8_failed_run_prints_no_answer_witness :
  exists tr e,
    Sample.run Sample.corpus (py "q") 4 10 20 = (tr, inl e)
    /\ (printed tr = [loading_line [py "a.pdf"]]
        \/ (printed tr = [loading_line [py "a.pdf"]; py "Generating answer..."]
            /\ exists nn, Sample.asynthesize (synth_kwargs (py "gpt-5-nano"))
                            (py "q") nn = inl e)).
Proof.
  eexists _, _. split; [reflexivity|].
  exact (X8_failed_run_prints_no_answer _ _ (Sample.load_data Sample.corpus)
    Sample.from_documents Sample.retrieve Sample.SentenceSplitter
    Sample.asynthesize Sample.float_str
    [py "a.pdf"] (py "q") 4 10 20 (py "gpt-5-nano") _ _ eq_refl).
Defined.

Lemma X10_synthesizer_gets_the_units_witness :
  exists cfg nodes sm,
    EvSynthesize cfg (py "q") nodes ∈ (Sample.run Sample.corpus (py "q") 4 3 1).1
    /\ _split_and_number Sample.SentenceSplitter Sample.corpus 3 1 = inr (nodes, sm).
Proof.
  assert (Hin : EvSynthesize (synth_kwargs (py "gpt-5-nano")) (py "q")
                  (numbered_nodes (split_and_number_loop (Sample.split_text 3 1)
                                     Sample.corpus))
                ∈ (Sample.run Sample.corpus (py "q") 4 3 1).1).
  { apply (list_elem_of_lookup_2 _ 5%nat). vm_compute. reflexivity. }
  destruct (X10_synthesizer_gets_the_units _ _ (Sample.load_data Sample.corpus)
    Sample.from_documents Sample.retrieve Sample.SentenceSplitter
    Sample.asynthesize Sample.float_str
    [py "a.pdf"] (py "q") 4 3 1 (py "gpt-5-nano") _ _ Sample.corpus _ _ _
    eq_refl eq_refl eq_refl Hin) as (_ & _ & _ & _ & _ & _ & sm & Hsm).
  eexists _, _, sm. split; [exact Hin | exact Hsm].
Defined.

(** * Properties of the second script *)

Lemma print_nodes_closed float_fmt3 i source_nodes :
  CitationQueryEngine.print_nodes float_fmt3 i source_nodes
  = (x ← numbered_from
           (fun k sn => (CitationQueryEngine.head_line float_fmt3 k sn,
                         CitationQueryEngine.snippet_line sn)) i source_nodes;
     [EvPrint x.1; EvPrint x.2],
     inr tt).
Proof.
  revert i. induction source_nodes as [|sn rest IH]; intros i; [done|].
  cbn [CitationQueryEngine.print_nodes numbered_from].
  rewrite IH. done.
Qed.

(** X12. The printer of the second script prints its heading and then, for
    every source node and in their order, a head line numbered from 1 and a
    snippet line; no node is left out. Without source nodes (no attribute,
    or an empty list) it prints the heading and
    "(no source nodes returned)" only. *)
Theorem X12_print_source_map_lines float_fmt3 source_nodes :
  let r := CitationQueryEngine.print_source_map float_fmt3 source_nodes in
  r.2 = inr tt
  /\ match source_nodes with
     | None | Some [] =>
         printed r.1
         = [[NL] ++ py "=== SOURCE MAP ==="; py "(no source nodes returned)"]
     | Some nodes =>
         length (printed r.1) = (1 + 2 * length nodes)%nat
         /\ printed r.1 !! 0%nat = Some ([NL] ++ py "=== SOURCE MAP ===")
         /\ forall (i : nat) sn, nodes !! i = Some sn ->
              printed r.1 !! (1 + 2 * i)%nat
              = Some (CitationQueryEngine.head_line float_fmt3 (Z.of_nat i + 1) sn)
              /\ printed r.1 !! (1 + (2 * i + 1))%nat
                 = Some (CitationQueryEngine.snippet_line sn)
     end.
Proof.
  cbv zeta. unfold CitationQueryEngine.print_source_map.
  destruct source_nodes as [[|sn rest]|]; [done| |done].
  rewrite print_nodes_closed. set (nodes := sn :: rest).
  cbn [mbind Run_bind bind print fst snd]. split; [done|].
  rewrite (printed_app [_]), (printed_two_prints _ fst snd).
  change (printed [EvPrint ?l]) with [l].
  split; [|split; [done|]].
  - rewrite length_app, length_pairs, length_numbered_from. done.
  - intros i sn' Hsn.
    rewrite !(lookup_app_r [_]) by (cbn [length]; lia). cbn [length].
    replace (1 + 2 * i - 1)%nat with (2 * i)%nat by lia.
    replace (1 + (2 * i + 1) - 1)%nat with (2 * i + 1)%nat by lia.
    rewrite (proj1 (lookup_pairs _ _ _ i)), (proj2 (lookup_pairs _ _ _ i)).
    rewrite lookup_numbered_from, Hsn. cbn. by rewrite (Z.add_comm 1).
Qed.

Lemma elem_of_take_full {A} (x : A) n (l : list A) : x ∈ take n l -> x ∈ l.
Proof.
  intros Hx. rewrite <- (take_drop n l). apply elem_of_app. by left.
Qed.

(** X13. The snippet line of the second printer is the indent followed by
    the stripped text of the node with newlines turned into spaces, cut to
    220 code points and marked with " ..." when it is longer. The line has
    at most 229 code points and no newline. *)
Theorem X13_snippet_line_bounded (sn : NodeWithScore) :
  let line := CitationQueryEngine.snippet_line sn in
  let body := replace_nl (CitationQueryEngine.strip (get_content (node sn))) in
  let indent := py "  " ++ [9492%N; 9472%N] ++ py " " in
  (length line <= 229)%nat
  /\ (10%N ∉ line)
  /\ ((length body <= 220)%nat -> line = indent ++ body)
  /\ ((220 < length body)%nat -> line = indent ++ take 220 body ++ py " ...").
Proof.
  cbv zeta. unfold CitationQueryEngine.snippet_line.
  set (body := replace_nl _).
  assert (Hbody : NL ∉ body) by apply replace_nl_no_newline.
  assert (Hindent : forall l : pystr, NL ∉ l ->
            NL ∉ py "  " ++ [9492%N; 9472%N] ++ py " " ++ l).
  { intros l Hl [H|H]%elem_of_app.
    - revert H. by apply (bool_decide_unpack _).
    - apply elem_of_app in H as [H|H].
      + revert H. by apply (bool_decide_unpack _).
      + apply elem_of_app in H as [H|H]; [|done].
        revert H. by apply (bool_decide_unpack _). }
  assert (Hlength : forall l : pystr,
            length (py "  " ++ [9492%N; 9472%N] ++ py " " ++ l) = (5 + length l)%nat).
  { intros l. by rewrite !length_app. }
  destruct (220 <? length body)%nat eqn:Hlen.
  - apply Nat.ltb_lt in Hlen. repeat split.
    + rewrite Hlength, length_app, length_take.
      change (length (py " ...")) with 4%nat. lia.
    + apply Hindent. intros [H|H]%elem_of_app.
      * by apply elem_of_take_full in H.
      * revert H. by apply (bool_decide_unpack _).
    + lia.
  - apply Nat.ltb_ge in Hlen. repeat split.
    + rewrite Hlength. lia.
    + by apply Hindent.
    + lia.
Qed.

Lemma forallb_first_false {A} (f : A -> bool) (l : list A) :
  forallb f l = false ->
  exists before x after,
    l = before ++ x :: after /\ forallb f before = true /\ f x = false.
Proof.
  induction l as [|x l IH]; [done|]. cbn [forallb].
  destruct (f x) eqn:Hx.
  - intros (before & y & after & -> & Hb & Hy)%IH.
    exists (x :: before), y, after. cbn [forallb]. by rewrite Hx.
  - intros _. by exists [], x, l.
Qed.

Section SecondMain.

Variables Document Index Engine : Type.
Variable path_exists : pystr -> bool.
Variable abspath : pystr -> pystr.
Variable load_data : list pystr -> PyExc + list Document.
Variable from_documents : list Document -> pystr -> PyExc + Index.
Variable from_args : Index -> pystr -> Z -> Z -> Z -> PyExc + Engine.
Variable engine_query :
  Engine -> pystr -> PyExc + CitationQueryEngine.QueryResponse.
Variable float_fmt3 : float -> pystr.

Local Abbreviation main := (CitationQueryEngine.main Document Index Engine
  path_exists abspath load_data from_documents from_args engine_query float_fmt3).
Local Abbreviation validate_files :=
  (CitationQueryEngine.validate_files path_exists abspath).
Local Abbreviation PathExists := CitationQueryEngine.PathExists.
Local Abbreviation Stdout := CitationQueryEngine.Stdout.
Local Abbreviation Stderr := CitationQueryEngine.Stderr.
Local Abbreviation LoadData := CitationQueryEngine.LoadData.
Local Abbreviation FromDocuments := CitationQueryEngine.FromDocuments.
Local Abbreviation FromArgs := CitationQueryEngine.FromArgs.
Local Abbreviation Query := CitationQueryEngine.Query.
Local Abbreviation SysExit := CitationQueryEngine.SysExit.
Local Abbreviation library_calls := CitationQueryEngine.library_calls.

Local Ltac run_script :=
  cbn [mbind mret CitationQueryEngine.Script_bind CitationQueryEngine.Script_ret
       CitationQueryEngine.script_bind CitationQueryEngine.script_ret
       CitationQueryEngine.out CitationQueryEngine.err CitationQueryEngine.exit
       CitationQueryEngine.invoke CitationQueryEngine.exists_
       CitationQueryEngine.load_pdfs CitationQueryEngine.build_index
       CitationQueryEngine.make_citation_engine].

Lemma validate_files_all_exist paths pdfs :
  forallb path_exists paths = true ->
  validate_files paths pdfs
  = (PathExists <$> paths, inr (pdfs ++ (abspath <$> paths))).
Proof.
  revert pdfs. induction paths as [|p paths IH]; intros pdfs.
  - intros _. cbn. by rewrite app_nil_r.
  - cbn [forallb]. intros [Hp Hrest]%andb_prop.
    cbn [CitationQueryEngine.validate_files]. run_script. rewrite Hp.
    rewrite (IH _ Hrest), fmap_cons, <- app_assoc. done.
Qed.

Lemma validate_files_missing before p after pdfs :
  forallb path_exists before = true ->
  path_exists p = false ->
  validate_files (before ++ p :: after) pdfs
  = ((PathExists <$> before)
       ++ [PathExists p; Stderr (py "ERROR: File not found: " ++ p)],
     inl (SysExit 2)).
Proof.
  revert pdfs. induction before as [|q before IH]; intros pdfs.
  - intros _ Hp. cbn [app CitationQueryEngine.validate_files]. run_script.
    by rewrite Hp.
  - cbn [forallb]. intros [Hq Hrest]%andb_prop Hp.
    cbn [app CitationQueryEngine.validate_files]. run_script. rewrite Hq.
    by rewrite (IH _ Hrest Hp).
Qed.

Lemma library_calls_app tr1 tr2 :
  library_calls (tr1 ++ tr2) = library_calls tr1 ++ library_calls tr2.
Proof. apply List.filter_app. Qed.

Lemma library_calls_path_tests paths : library_calls (PathExists <$> paths) = [].
Proof. induction paths as [|p paths IH]; [done|]. by rewrite fmap_cons. Qed.

Lemma library_calls_stdout ls : library_calls (Stdout <$> ls) = [].
Proof. induction ls as [|l ls IH]; [done|]. by rewrite fmap_cons. Qed.

Lemma main_first_missing key0 key args before p after :
  CitationQueryEngine.pdf args = before ++ p :: after ->
  forallb path_exists before = true ->
  path_exists p = false ->
  main (Some (key0 :: key)) args
  = ((PathExists <$> before)
       ++ [PathExists p; Stderr (py "ERROR: File not found: " ++ p)],
     inl (SysExit 2)).
Proof.
  intros Hpdf Hbefore Hp. unfold CitationQueryEngine.main.
  rewrite Hpdf, (validate_files_missing _ _ _ _ Hbefore Hp). done.
Qed.

(** X14. The second script stops at the first path that does not exist:
    it has tested the paths before it and that one, no later path, writes
    "ERROR: File not found:" with the path to standard error and exits with
    status 2, before anything is loaded. *)
Theorem X14_first_missing_file_stops key0 key args before p after :
  CitationQueryEngine.pdf args = before ++ p :: after ->
  forallb path_exists before = true ->
  path_exists p = false ->
  main (Some (key0 :: key)) args
  = ((PathExists <$> before)
       ++ [PathExists p; Stderr (py "ERROR: File not found: " ++ p)],
     inl (SysExit 2)).
Proof.
  intros Hpdf Hbefore Hp. unfold CitationQueryEngine.main.
  rewrite Hpdf, (validate_files_missing _ _ _ _ Hbefore Hp). done.
Qed.

(** The same for a command line that [parse_args] accepts. *)
Lemma exit_status_2_parsed key args :
  let r := main key args in
  (r.2 = inl (SysExit 2)
   <-> key_is_set key = false
       \/ forallb path_exists (CitationQueryEngine.pdf args) = false)
  /\ (r.2 = inl (SysExit 2) -> library_calls r.1 = []).
Proof.
  cbv zeta. unfold CitationQueryEngine.main.
  destruct key as [[|k key]|]; cbn [key_is_set].
  - split; [split; [by left|done]|done].
  - destruct (forallb path_exists (CitationQueryEngine.pdf args)) eqn:Hall.
    + rewrite (validate_files_all_exist _ _ Hall). run_script.
      destruct (load_data _) as [e|[|d ds]]; run_script.
      { split; [split; [done|by intros [|]]|done]. }
      { split; [split; [done|by intros [|]]|done]. }
      destruct (from_documents _ _) as [e|index]; run_script.
      { split; [split; [done|by intros [|]]|done]. }
      destruct (from_args _ _ _ _ _) as [e|engine]; run_script.
      { split; [split; [done|by intros [|]]|done]. }
      destruct (engine_query _ _) as [e|resp]; run_script.
      { split; [split; [done|by intros [|]]|done]. }
      unfold CitationQueryEngine.of_run.
      destruct (CitationQueryEngine.print_source_map _ _) as [tr [e|[]]];
        cbn [fst snd]; split; (split; [done|by intros [|]]) || done.
    + apply forallb_first_false in Hall as (before & p & after & -> & Hb & Hp).
      rewrite (validate_files_missing _ _ _ _ Hb Hp). run_script. cbn [fst snd].
      split; [split; [by right|done]|]. intros _.
      rewrite library_calls_app, library_calls_path_tests. done.
  - split; [split; [by left|done]|done].
Qed.

Lemma print_source_map_returns source_nodes :
  (CitationQueryEngine.print_source_map float_fmt3 source_nodes).2 = inr tt.
Proof.
  unfold CitationQueryEngine.print_source_map.
  destruct source_nodes as [[|sn rest]|]; [done| |done].
  by rewrite print_nodes_closed.
Qed.

(** The run of [main] once the key is set and every path is found. *)
Lemma main_closed key0 key args :
  forallb path_exists (CitationQueryEngine.pdf args) = true ->
  main (Some (key0 :: key)) args
  = let pdfs := abspath <$> CitationQueryEngine.pdf args in
    let q := CitationQueryEngine.query args in
    let ev_index := FromDocuments (CitationQueryEngine.embed_model args) in
    let ev_engine :=
      FromArgs (CitationQueryEngine.model args) (CitationQueryEngine.top_k args)
        (CitationQueryEngine.citation_chunk_size args)
        (CitationQueryEngine.citation_chunk_overlap args) in
    let pre := (PathExists <$> CitationQueryEngine.pdf args)
                 ++ [Stdout (py "Loading PDFs..."); LoadData pdfs [py ".pdf"]] in
    match load_data pdfs with
    | inl e => (pre, inl (CitationQueryEngine.Uncaught e))
    | inr [] =>
        (pre ++ [Stderr (py "No documents loaded from the provided PDFs.")],
         inl (SysExit 1))
    | inr (d :: ds) =>
        match from_documents (d :: ds) (CitationQueryEngine.embed_model args) with
        | inl e =>
            (pre ++ [Stdout (py "Building index..."); ev_index],
             inl (CitationQueryEngine.Uncaught e))
        | inr index =>
            match from_args index (CitationQueryEngine.model args)
                    (CitationQueryEngine.top_k args)
                    (CitationQueryEngine.citation_chunk_size args)
                    (CitationQueryEngine.citation_chunk_overlap args) with
            | inl e =>
                (pre ++ [Stdout (py "Building index..."); ev_index;
                         Stdout (py "Creating citation query engine...");
                         ev_engine],
                 inl (CitationQueryEngine.Uncaught e))
            | inr engine =>
                match engine_query engine q with
                | inl e =>
                    (pre ++ [Stdout (py "Building index..."); ev_index;
                             Stdout (py "Creating citation query engine...");
                             ev_engine;
                             Stdout ([NL] ++ py "=== QUERY ===");
                             Stdout q; Query q],
                     inl (CitationQueryEngine.Uncaught e))
                | inr resp =>
                    (pre ++ [Stdout (py "Building index..."); ev_index;
                             Stdout (py "Creating citation query engine...");
                             ev_engine;
                             Stdout ([NL] ++ py "=== QUERY ===");
                             Stdout q; Query q;
                             Stdout ([NL] ++ py "=== ANSWER (with inline citations) ===");
                             Stdout (CitationQueryEngine.strip
                                       (CitationQueryEngine.str_response resp))]
                         ++ (Stdout <$> printed
                               (CitationQueryEngine.print_source_map float_fmt3
                                  (CitationQueryEngine.source_nodes resp)).1),
                     inr tt)
                end
            end
        end
    end.
Proof.
  intros Hall. unfold CitationQueryEngine.main.
  rewrite (validate_files_all_exist _ _ Hall). run_script. cbv zeta.
  destruct (load_data _) as [e|[|d ds]]; run_script;
    [rewrite <- ?app_assoc, ?app_nil_r; reflexivity
    |rewrite <- ?app_assoc; reflexivity |].
  destruct (from_documents _ _) as [e|index]; run_script;
    [rewrite <- ?app_assoc; reflexivity|].
  destruct (from_args _ _ _ _ _) as [e|engine]; run_script;
    [rewrite <- ?app_assoc; reflexivity|].
  destruct (engine_query _ _) as [e|resp]; run_script;
    [rewrite <- ?app_assoc; reflexivity|].
  unfold CitationQueryEngine.of_run. rewrite print_source_map_returns.
  rewrite <- ?app_assoc. reflexivity.
Qed.

(** X16. With the key set and every path found, the script loads the
    absolute paths of the given files, in the order given and restricted to
    the extension ".pdf". If the reader raises, the exception is not caught;
    if it returns no document, the script writes "No documents loaded from
    the provided PDFs." to standard error and exits with status 1 without
    building an index. *)
Theorem X16_loads_absolute_paths key0 key args :
  forallb path_exists (CitationQueryEngine.pdf args) = true ->
  let pdfs := abspath <$> CitationQueryEngine.pdf args in
  let pre := (PathExists <$> CitationQueryEngine.pdf args)
               ++ [Stdout (py "Loading PDFs..."); LoadData pdfs [py ".pdf"]] in
  (exists tr r, main (Some (key0 :: key)) args = (pre ++ tr, r))
  /\ (load_data pdfs = inr [] ->
        main (Some (key0 :: key)) args
        = (pre ++ [Stderr (py "No documents loaded from the provided PDFs.")],
           inl (SysExit 1)))
  /\ (forall e, load_data pdfs = inl e ->
        main (Some (key0 :: key)) args
        = (pre, inl (CitationQueryEngine.Uncaught e))).
Proof.
  intros Hall pdfs pre. rewrite (main_closed _ _ _ Hall). cbv zeta.
  fold pdfs. fold pre. split; [|split].
  - destruct (load_data pdfs) as [e|[|d ds]];
      [exists []; eexists; by rewrite app_nil_r | by eexists _, _ |].
    destruct (from_documents _ _) as [e|index]; [by eexists _, _|].
    destruct (from_args _ _ _ _ _) as [e|engine]; [by eexists _, _|].
    destruct (engine_query _ _) as [e|resp]; by eexists _, _.
  - by intros ->.
  - by intros e ->.
Qed.

(** X17. When every step succeeds the second script tests the paths, loads
    them, builds the index with the embedding model of the command line,
    builds the engine with its chat model, top-k, chunk size and overlap,
    asks the query once, and prints the stripped answer followed by the
    source map of the response; it ends normally. *)
Theorem X17_successful_second_script key0 key args d ds index engine resp :
  forallb path_exists (CitationQueryEngine.pdf args) = true ->
  load_data (abspath <$> CitationQueryEngine.pdf args) = inr (d :: ds) ->
  from_documents (d :: ds) (CitationQueryEngine.embed_model args) = inr index ->
  from_args index (CitationQueryEngine.model args)
    (CitationQueryEngine.top_k args)
    (CitationQueryEngine.citation_chunk_size args)
    (CitationQueryEngine.citation_chunk_overlap args) = inr engine ->
  engine_query engine (CitationQueryEngine.query args) = inr resp ->
  main (Some (key0 :: key)) args
  = ((PathExists <$> CitationQueryEngine.pdf args)
       ++ [Stdout (py "Loading PDFs...");
           LoadData (abspath <$> CitationQueryEngine.pdf args) [py ".pdf"];
           Stdout (py "Building index...");
           FromDocuments (CitationQueryEngine.embed_model args);
           Stdout (py "Creating citation query engine...");
           FromArgs (CitationQueryEngine.model args)
             (CitationQueryEngine.top_k args)
             (CitationQueryEngine.citation_chunk_size args)
             (CitationQueryEngine.citation_chunk_overlap args);
           Stdout ([NL] ++ py "=== QUERY ===");
           Stdout (CitationQueryEngine.query args);
           Query (CitationQueryEngine.query args);
           Stdout ([NL] ++ py "=== ANSWER (with inline citations) ===");
           Stdout (CitationQueryEngine.strip (CitationQueryEngine.str_response resp))]
       ++ (Stdout <$> printed
             (CitationQueryEngine.print_source_map float_fmt3
                (CitationQueryEngine.source_nodes resp)).1),
     inr tt).
Proof.
  intros Hall H1 H2 H3 H4. rewrite (main_closed _ _ _ Hall). cbv zeta.
  rewrite H1, H2, H3, H4. by rewrite <- !app_assoc.
Qed.

(** X18. In every run of the second script the library is called at most
    once for each step and in the order load, index, engine, query, with the
    values of the command line: the library calls of a run are a prefix of
    that list. *)
Theorem X18_library_calls_in_order key args :
  library_calls (main key args).1
  `prefix_of`
    [LoadData (abspath <$> CitationQueryEngine.pdf args) [py ".pdf"];
     FromDocuments (CitationQueryEngine.embed_model args);
     FromArgs (CitationQueryEngine.model args) (CitationQueryEngine.top_k args)
       (CitationQueryEngine.citation_chunk_size args)
       (CitationQueryEngine.citation_chunk_overlap args);
     Query (CitationQueryEngine.query args)].
Proof.
  destruct key as [[|k key]|]; [by eexists| |by eexists].
  destruct (forallb path_exists (CitationQueryEngine.pdf args)) eqn:Hall.
  - rewrite (main_closed _ _ _ Hall). cbv zeta.
    destruct (load_data _) as [e|[|d ds]].
    { cbn [fst]. rewrite library_calls_app, library_calls_path_tests. by eexists. }
    { cbn [fst]. rewrite !library_calls_app, library_calls_path_tests. by eexists. }
    destruct (from_documents _ _) as [e|index].
    { cbn [fst]. rewrite !library_calls_app, library_calls_path_tests. by eexists. }
    destruct (from_args _ _ _ _ _) as [e|engine].
    { cbn [fst]. rewrite !library_calls_app, library_calls_path_tests. by eexists. }
    destruct (engine_query _ _) as [e|resp]; cbn [fst];
      rewrite !library_calls_app, library_calls_path_tests,
        ?library_calls_stdout; by exists [].
  - apply forallb_first_false in Hall as (before & p & after & Hpdf & Hb & Hp).
    rewrite (main_first_missing k key args _ _ _ Hpdf Hb Hp).
    cbn [fst]. rewrite library_calls_app, library_calls_path_tests. by eexists.
Qed.

(** X15. The second script exits with status 2 in exactly three cases:
    [parse_args] refuses the command line and ends the program with that
    status, the API key is not set, or one of the given paths does not
    exist. In all three it has made no call into the library. *)
Theorem X15_exit_status_2 parse_args key :
  let r := CitationQueryEngine.main_entry Document Index Engine path_exists
             abspath load_data from_documents from_args engine_query
             float_fmt3 parse_args key in
  (r.2 = inl (SysExit 2)
   <-> parse_args = inl 2
       \/ exists args, parse_args = inr args
            /\ (key_is_set key = false
                \/ forallb path_exists (CitationQueryEngine.pdf args) = false))
  /\ (r.2 = inl (SysExit 2) -> library_calls r.1 = []).
Proof.
  cbv zeta. unfold CitationQueryEngine.main_entry.
  destruct parse_args as [status|args].
  - cbn [CitationQueryEngine.exit fst snd]. split; [|done]. split.
    + intros [= ->]. by left.
    + intros [[= ->]|(args & [=] & _)]. done.
  - destruct (exit_status_2_parsed key args) as [Hiff Hcalls].
    split; [|exact Hcalls]. rewrite Hiff. split.
    + intros Hcase. right. by exists args.
    + intros [[=]|(args' & [= <-] & Hcase)]. done.
Qed.

End SecondMain.

Lemma X14_first_missing_file_stops_witness :
  SampleEngine.main (Some (py "k")) [py "a.pdf"; py "gone.pdf"; py "b.pdf"]
  = ([CitationQueryEngine.PathExists (py "a.pdf");
      CitationQueryEngine.PathExists (py "gone.pdf");
      CitationQueryEngine.Stderr (py "ERROR: File not found: gone.pdf")],
     inl (CitationQueryEngine.SysExit 2)).
Proof.
  exact (X14_first_missing_file_stops _ _ _ SampleEngine.path_exists
    SampleEngine.abspath SampleEngine.load_data SampleEngine.from_documents
    SampleEngine.from_args SampleEngine.engine_query Sample.float_str
    107%N [] (SampleEngine.options [py "a.pdf"; py "gone.pdf"; py "b.pdf"])
    [py "a.pdf"] (py "gone.pdf") [py "b.pdf"] eq_refl eq_refl eq_refl).
Defined.

Lemma X16_loads_absolute_paths_witness :
  exists tr r,
    SampleEngine.main (Some (py "k")) [py "a.pdf"; py "b.pdf"]
    = ([CitationQueryEngine.PathExists (py "a.pdf");
        CitationQueryEngine.PathExists (py "b.pdf");
        CitationQueryEngine.Stdout (py "Loading PDFs...");
        CitationQueryEngine.LoadData [py "/work/a.pdf"; py "/work/b.pdf"] [py ".pdf"]]
         ++ tr, r).
Proof.
  exact (proj1 (X16_loads_absolute_paths _ _ _ SampleEngine.path_exists
    SampleEngine.abspath SampleEngine.load_data SampleEngine.from_documents
    SampleEngine.from_args SampleEngine.engine_query Sample.float_str
    107%N [] (SampleEngine.options [py "a.pdf"; py "b.pdf"]) eq_refl)).
Defined.

Lemma X17_successful_second_script_witness :
  exists tr,
    SampleEngine.main (Some (py "k")) [py "a.pdf"] = (tr, inr tt)
    /\ CitationQueryEngine.library_calls tr
       = [CitationQueryEngine.LoadData [py "/work/a.pdf"] [py ".pdf"];
          CitationQueryEngine.FromDocuments (py "text-embedding-3-small");
          CitationQueryEngine.FromArgs (py "gpt-5-nano") 4 80 10;
          CitationQueryEngine.Query (py "q")].
Proof.
  eexists. split.
  - exact (X17_successful_second_script _ _ _ SampleEngine.path_exists
      SampleEngine.abspath SampleEngine.load_data SampleEngine.from_documents
      SampleEngine.from_args SampleEngine.engine_query Sample.float_str
      107%N [] (SampleEngine.options [py "a.pdf"]) _ _ _ _ _
      eq_refl eq_refl eq_refl eq_refl eq_refl).
  - vm_compute. reflexivity.
Defined.

Lemma retrieval_is_always_called_witness :
  exists tr r,
    Sample.run Sample.corpus (py "q") 0 10 20
    = (through_retrieval [py "a.pdf"] 0 (py "q") ++ tr, r).
Proof.
  exact (retrieval_is_always_called _ _ (Sample.load_data Sample.corpus)
    Sample.from_documents Sample.retrieve Sample.SentenceSplitter
    Sample.asynthesize Sample.float_str
    [py "a.pdf"] (py "q") 0 10 20 (py "gpt-5-nano") _ _ eq_refl eq_refl).
Defined.

Lemma answer_with_citations_success_witness :
  exists nn sm resp,
    _split_and_number Sample.SentenceSplitter Sample.corpus 3 1 = inr (nn, sm)
    /\ Sample.asynthesize (synth_kwargs (py "gpt-5-nano")) (py "q") nn = inr resp
    /\ Sample.run Sample.corpus (py "q") 4 3 1
       = (through_retrieval [py "a.pdf"] 4 (py "q")
            ++ [EvPrint (py "Generating answer...");
                EvSynthesize (synth_kwargs (py "gpt-5-nano")) (py "q") nn;
                EvPrint ([NL] ++ replicate 80 61%N);
                EvPrint (py "FINAL ANSWER");
                EvPrint (replicate 80 61%N);
                EvPrint (final_text resp)]
            ++ (show_source_map Sample.float_str sm).1,
          inr tt).
Proof.
  eexists _, _, _. split; [reflexivity|]. split; [reflexivity|].
  exact (answer_with_citations_success _ _ (Sample.load_data Sample.corpus)
    Sample.from_documents Sample.retrieve Sample.SentenceSplitter
    Sample.asynthesize Sample.float_str
    [py "a.pdf"] (py "q") 4 3 1 (py "gpt-5-nano") _ _ _ _ _ _ _
    eq_refl eq_refl eq_refl eq_refl eq_refl).
Defined.
